(** * Wakeup-reason logging: kernel/power/wakeup_reason.c

    A shallow embedding of the wakeup-reason logger and the properties its
    specification states about it.

    The C file keeps its state in file-level globals; here they are the
    fields of one record, [wr_state], that every function takes and
    returns.  The file holds two generations of the logger side by side:
    the flat array [irq_list]/[irqcount] filled by [log_wakeup_reason],
    and the tree of [wakeup_irq_node]s read by [get_wakeup_reasons].  Both
    are embedded, each from its own functions.

    What the file uses but does not define is either a parameter of the
    section below (widths, limits, the interrupt-descriptor table) or a
    definition whose comment starts with "Modelled from the spec". *)

From Stdlib Require Import ZArith Lia.
From stdpp Require Import base list strings pretty.

Open Scope Z_scope.

(** ** Time stamps *)

(** [struct timespec]: seconds and nanoseconds. *)
Record timespec := Timespec { tv_sec : Z; tv_nsec : Z }.

Definition NSEC_PER_SEC : Z := 1000000000.

Definition timespec_zero : timespec := Timespec 0 0.

(** Modelled from the spec: [timespec_sub] comes from linux/time.h, which
    is not among the sources modelled here.  The spec defines the three
    durations as differences of two time stamps
    ([curr_sleep_accum - last_sleep_accum] and so on); on a
    seconds/nanoseconds pair the difference is taken field by field and
    the nanoseconds are carried back into [0, NSEC_PER_SEC). *)
Definition set_normalized_timespec (sec nsec : Z) : timespec :=
  Timespec (sec + nsec / NSEC_PER_SEC) (nsec mod NSEC_PER_SEC).

Definition timespec_sub (lhs rhs : timespec) : timespec :=
  set_normalized_timespec (tv_sec lhs - tv_sec rhs) (tv_nsec lhs - tv_nsec rhs).

(** A time stamp in nanoseconds, to compare two of them. *)
Definition timespec_to_ns (t : timespec) : Z := tv_sec t * NSEC_PER_SEC + tv_nsec t.

(** ** The tree of wakeup interrupts *)

(** The scalar fields of [struct wakeup_irq_node].  [node_id] is the
    handle of the node: its allocation number within the cycle, which is
    also its position in insertion order. *)
Record node_info := NodeInfo {
  node_id : nat;
  irq : Z;
  handled : bool;
  parent : option nat
}.

(** A pointer to a [wakeup_irq_node]: [NoNode] is NULL; a node carries its
    first child ([n->child]) and the rest of its sibling list
    ([n->siblings]). *)
Inductive irq_tree :=
| NoNode
| IrqNode (n : node_info) (child : irq_tree) (siblings : irq_tree).

Definition is_NoNode (t : irq_tree) : bool :=
  match t with NoNode => true | IrqNode _ _ _ => false end.

(** Modelled from the spec: [walk_irq_node_tree] is called here but defined
    elsewhere.  The callers in this file fix its interface: the visitor
    gets the node and a cookie, a visitor that answers false stops the
    walk, and the walk answers whether it went through
    ([check_wakeup_reason] negates that answer to get "found").  They fix
    its order too, as far as this file shows it.  [delete_node] frees the
    node it visits, so the walk is through with the siblings and the
    children of a node before it visits the node.  And the spec has the
    leaves collected in insertion order, while [build_leaf_nodes] links
    every leaf in front of the ones met before it: the walk meets the
    nodes from the one inserted last to the one inserted first, that is
    the later siblings of a node, then the nodes nested under it, then the
    node.  The visitor also receives [n->child], which [build_leaf_nodes]
    tests. *)
Fixpoint walk_irq_node_tree {A : Type} (root : irq_tree)
    (visit : node_info -> irq_tree -> A -> bool * A) (cookie : A) : bool * A :=
  match root with
  | NoNode => (true, cookie)
  | IrqNode n child siblings =>
      let (go, c1) := walk_irq_node_tree siblings visit cookie in
      if go then
        let (go', c2) := walk_irq_node_tree child visit c1 in
        if go' then visit n child c2 else (false, c2)
      else (false, c1)
  end.

(** The nodes of a forest in insertion order (a node, the nodes nested
    under it, its later siblings), each with its [child] pointer, and the
    same list without the pointers. *)
Fixpoint entries (t : irq_tree) : list (node_info * irq_tree) :=
  match t with
  | NoNode => []
  | IrqNode n child siblings => (n, child) :: entries child ++ entries siblings
  end.

Definition nodes (t : irq_tree) : list node_info := (entries t).*1.

(** The node with handle [h], with its [child] pointer. *)
Fixpoint find_node (h : nat) (t : irq_tree) : option (node_info * irq_tree) :=
  match t with
  | NoNode => None
  | IrqNode n child siblings =>
      if Nat.eqb (node_id n) h then Some (n, child)
      else match find_node h child with
           | Some e => Some e
           | None => find_node h siblings
           end
  end.

Definition set_handled (n : node_info) : node_info :=
  NodeInfo (node_id n) (irq n) true (parent n).

(** [n->handled = true] on the node with handle [h]. *)
Fixpoint mark_handled (h : nat) (t : irq_tree) : irq_tree :=
  match t with
  | NoNode => NoNode
  | IrqNode n child siblings =>
      IrqNode (if Nat.eqb (node_id n) h then set_handled n else n)
              (mark_handled h child) (mark_handled h siblings)
  end.

(** Puts [new] at the end of a sibling list. *)
Fixpoint append_sibling (new : irq_tree) (t : irq_tree) : irq_tree :=
  match t with
  | NoNode => new
  | IrqNode n child siblings => IrqNode n child (append_sibling new siblings)
  end.

(** Makes [new] the last child of the node with handle [p]. *)
Fixpoint add_child (p : nat) (new : irq_tree) (t : irq_tree) : irq_tree :=
  match t with
  | NoNode => NoNode
  | IrqNode n child siblings =>
      if Nat.eqb (node_id n) p then IrqNode n (append_sibling new child) siblings
      else IrqNode n (add_child p new child) (add_child p new siblings)
  end.

Definition all_handled (t : irq_tree) : bool := forallb handled (nodes t).

(** The nodes of a forest in the order in which the walk visits them,
    each with its [child] pointer. *)
Fixpoint visited (t : irq_tree) : list (node_info * irq_tree) :=
  match t with
  | NoNode => []
  | IrqNode n child siblings => visited siblings ++ visited child ++ [(n, child)]
  end.

(** The nodes with no children, in the order of the walk. *)
Definition leaf_nodes (t : irq_tree) : list node_info :=
  (List.filter (fun e => is_NoNode e.2) (visited t)).*1.

Definition handles (t : irq_tree) : list nat := node_id <$> nodes t.

(** [c] lies on the path that starts at the last root and goes on through
    last children: the nodes that can still be open. *)
Fixpoint on_spine (c : nat) (t : irq_tree) : Prop :=
  match t with
  | NoNode => False
  | IrqNode n child siblings =>
      if is_NoNode siblings then node_id n = c \/ on_spine c child
      else on_spine c siblings
  end.

(** Every [parent] field names the node above; [par] is the node above
    the roots of [t]. *)
Fixpoint well_parented (par : option nat) (t : irq_tree) : Prop :=
  match t with
  | NoNode => True
  | IrqNode n child siblings =>
      parent n = par /\ well_parented (Some (node_id n)) child
      /\ well_parented par siblings
  end.

(** ** Kernel log *)

(** One constructor per [printk]/[pr_*] call of the file, with the values
    its format string prints. *)
Inductive kmsg :=
| Resume_caused_by_IRQ (irq : Z) (name : option string)
    (* KERN_INFO "Resume caused by IRQ %d, %s\n" / "Resume caused by IRQ %d\n" *)
| Resume_caused_by_more_than (limit : Z)
    (* KERN_WARNING "Resume caused by more than %d IRQs\n" *)
| Wakeup_irq_not_handled (irq : Z)
    (* pr_warning "%s: wakeup irq %d was not handled\n" *)
| Completion_timeout
    (* pr_warn "%s: completion timeout\n" *)
| Waited_for (time_waited : Z)
    (* pr_info "%s: waited for %u ms\n", jiffies_to_msecs(time_waited) *)
| Wakeup_irq_dropped (irq : Z).
    (* the diagnostic of a begin_node that hits the nesting cap *)

(** ** The state *)

Definition MAX_WAKEUP_REASON_IRQS : Z := 32.

(** The globals of the file.  [suspend_count], [abort_count] and the three
    [total_*] time stamps are declared outside it and only read here
    ([suspend_since_boot_show]); [node_count] is the number of nodes
    allocated from [wakeup_irq_nodes_cache] since the last clear. *)
Record wr_state := WrState {
  irq_list : list Z;
  irqcount : Z;
  suspend_abort : bool;
  abort_reason : string;
  wakeup_ready_timeout : Z;
  wakeup_ready_wait : Z;
  wakeup_ready_nowait : Z;
  last_xtime : timespec;
  curr_xtime : timespec;
  last_stime : timespec;
  curr_stime : timespec;
  suspend_count : Z;
  abort_count : Z;
  total_xtime : timespec;
  total_stime : timespec;
  total_atime : timespec;
  base_irq_nodes : irq_tree;
  cur_irq_tree : option nat;
  cur_irq_tree_depth : nat;
  node_count : nat;
  wakeup_irqs : list node_info;
  log_wakeups : bool;
  klog : list kmsg
}.

(** The state at boot: zero-initialised globals. *)
Definition wr_boot : wr_state :=
  WrState (replicate 32 0) 0 false EmptyString 0 0 0
          timespec_zero timespec_zero timespec_zero timespec_zero
          0 0 timespec_zero timespec_zero timespec_zero
          NoNode None 0 0 [] false [].

(** Assignment to one global: [set_f v s] is [s] after [f = v]. *)
Definition set_irq_list (v : list Z) (s : wr_state) : wr_state :=
  {| irq_list := v; irqcount := irqcount s; suspend_abort := suspend_abort s;
     abort_reason := abort_reason s;
     wakeup_ready_timeout := wakeup_ready_timeout s;
     wakeup_ready_wait := wakeup_ready_wait s;
     wakeup_ready_nowait := wakeup_ready_nowait s;
     last_xtime := last_xtime s; curr_xtime := curr_xtime s;
     last_stime := last_stime s; curr_stime := curr_stime s;
     suspend_count := suspend_count s; abort_count := abort_count s;
     total_xtime := total_xtime s; total_stime := total_stime s;
     total_atime := total_atime s; base_irq_nodes := base_irq_nodes s;
     cur_irq_tree := cur_irq_tree s;
     cur_irq_tree_depth := cur_irq_tree_depth s; node_count := node_count s;
     wakeup_irqs := wakeup_irqs s; log_wakeups := log_wakeups s;
     klog := klog s |}.

Definition set_irqcount (v : Z) (s : wr_state) : wr_state :=
  {| irq_list := irq_list s; irqcount := v; suspend_abort := suspend_abort s;
     abort_reason := abort_reason s;
     wakeup_ready_timeout := wakeup_ready_timeout s;
     wakeup_ready_wait := wakeup_ready_wait s;
     wakeup_ready_nowait := wakeup_ready_nowait s;
     last_xtime := last_xtime s; curr_xtime := curr_xtime s;
     last_stime := last_stime s; curr_stime := curr_stime s;
     suspend_count := suspend_count s; abort_count := abort_count s;
     total_xtime := total_xtime s; total_stime := total_stime s;
     total_atime := total_atime s; base_irq_nodes := base_irq_nodes s;
     cur_irq_tree := cur_irq_tree s;
     cur_irq_tree_depth := cur_irq_tree_depth s; node_count := node_count s;
     wakeup_irqs := wakeup_irqs s; log_wakeups := log_wakeups s;
     klog := klog s |}.

Definition set_suspend_abort (v : bool) (s : wr_state) : wr_state :=
  {| irq_list := irq_list s; irqcount := irqcount s; suspend_abort := v;
     abort_reason := abort_reason s;
     wakeup_ready_timeout := wakeup_ready_timeout s;
     wakeup_ready_wait := wakeup_ready_wait s;
     wakeup_ready_nowait := wakeup_ready_nowait s;
     last_xtime := last_xtime s; curr_xtime := curr_xtime s;
     last_stime := last_stime s; curr_stime := curr_stime s;
     suspend_count := suspend_count s; abort_count := abort_count s;
     total_xtime := total_xtime s; total_stime := total_stime s;
     total_atime := total_atime s; base_irq_nodes := base_irq_nodes s;
     cur_irq_tree := cur_irq_tree s;
     cur_irq_tree_depth := cur_irq_tree_depth s; node_count := node_count s;
     wakeup_irqs := wakeup_irqs s; log_wakeups := log_wakeups s;
     klog := klog s |}.

Definition set_abort_reason (v : string) (s : wr_state) : wr_state :=
  {| irq_list := irq_list s; irqcount := irqcount s;
     suspend_abort := suspend_abort s; abort_reason := v;
     wakeup_ready_timeout := wakeup_ready_timeout s;
     wakeup_ready_wait := wakeup_ready_wait s;
     wakeup_ready_nowait := wakeup_ready_nowait s;
     last_xtime := last_xtime s; curr_xtime := curr_xtime s;
     last_stime := last_stime s; curr_stime := curr_stime s;
     suspend_count := suspend_count s; abort_count := abort_count s;
     total_xtime := total_xtime s; total_stime := total_stime s;
     total_atime := total_atime s; base_irq_nodes := base_irq_nodes s;
     cur_irq_tree := cur_irq_tree s;
     cur_irq_tree_depth := cur_irq_tree_depth s; node_count := node_count s;
     wakeup_irqs := wakeup_irqs s; log_wakeups := log_wakeups s;
     klog := klog s |}.

Definition set_wakeup_ready_timeout (v : Z) (s : wr_state) : wr_state :=
  {| irq_list := irq_list s; irqcount := irqcount s;
     suspend_abort := suspend_abort s; abort_reason := abort_reason s;
     wakeup_ready_timeout := v; wakeup_ready_wait := wakeup_ready_wait s;
     wakeup_ready_nowait := wakeup_ready_nowait s;
     last_xtime := last_xtime s; curr_xtime := curr_xtime s;
     last_stime := last_stime s; curr_stime := curr_stime s;
     suspend_count := suspend_count s; abort_count := abort_count s;
     total_xtime := total_xtime s; total_stime := total_stime s;
     total_atime := total_atime s; base_irq_nodes := base_irq_nodes s;
     cur_irq_tree := cur_irq_tree s;
     cur_irq_tree_depth := cur_irq_tree_depth s; node_count := node_count s;
     wakeup_irqs := wakeup_irqs s; log_wakeups := log_wakeups s;
     klog := klog s |}.

Definition set_wakeup_ready_wait (v : Z) (s : wr_state) : wr_state :=
  {| irq_list := irq_list s; irqcount := irqcount s;
     suspend_abort := suspend_abort s; abort_reason := abort_reason s;
     wakeup_ready_timeout := wakeup_ready_timeout s; wakeup_ready_wait := v;
     wakeup_ready_nowait := wakeup_ready_nowait s;
     last_xtime := last_xtime s; curr_xtime := curr_xtime s;
     last_stime := last_stime s; curr_stime := curr_stime s;
     suspend_count := suspend_count s; abort_count := abort_count s;
     total_xtime := total_xtime s; total_stime := total_stime s;
     total_atime := total_atime s; base_irq_nodes := base_irq_nodes s;
     cur_irq_tree := cur_irq_tree s;
     cur_irq_tree_depth := cur_irq_tree_depth s; node_count := node_count s;
     wakeup_irqs := wakeup_irqs s; log_wakeups := log_wakeups s;
     klog := klog s |}.

Definition set_wakeup_ready_nowait (v : Z) (s : wr_state) : wr_state :=
  {| irq_list := irq_list s; irqcount := irqcount s;
     suspend_abort := suspend_abort s; abort_reason := abort_reason s;
     wakeup_ready_timeout := wakeup_ready_timeout s;
     wakeup_ready_wait := wakeup_ready_wait s; wakeup_ready_nowait := v;
     last_xtime := last_xtime s; curr_xtime := curr_xtime s;
     last_stime := last_stime s; curr_stime := curr_stime s;
     suspend_count := suspend_count s; abort_count := abort_count s;
     total_xtime := total_xtime s; total_stime := total_stime s;
     total_atime := total_atime s; base_irq_nodes := base_irq_nodes s;
     cur_irq_tree := cur_irq_tree s;
     cur_irq_tree_depth := cur_irq_tree_depth s; node_count := node_count s;
     wakeup_irqs := wakeup_irqs s; log_wakeups := log_wakeups s;
     klog := klog s |}.

Definition set_last_xtime (v : timespec) (s : wr_state) : wr_state :=
  {| irq_list := irq_list s; irqcount := irqcount s;
     suspend_abort := suspend_abort s; abort_reason := abort_reason s;
     wakeup_ready_timeout := wakeup_ready_timeout s;
     wakeup_ready_wait := wakeup_ready_wait s;
     wakeup_ready_nowait := wakeup_ready_nowait s; last_xtime := v;
     curr_xtime := curr_xtime s; last_stime := last_stime s;
     curr_stime := curr_stime s; suspend_count := suspend_count s;
     abort_count := abort_count s; total_xtime := total_xtime s;
     total_stime := total_stime s; total_atime := total_atime s;
     base_irq_nodes := base_irq_nodes s; cur_irq_tree := cur_irq_tree s;
     cur_irq_tree_depth := cur_irq_tree_depth s; node_count := node_count s;
     wakeup_irqs := wakeup_irqs s; log_wakeups := log_wakeups s;
     klog := klog s |}.

Definition set_curr_xtime (v : timespec) (s : wr_state) : wr_state :=
  {| irq_list := irq_list s; irqcount := irqcount s;
     suspend_abort := suspend_abort s; abort_reason := abort_reason s;
     wakeup_ready_timeout := wakeup_ready_timeout s;
     wakeup_ready_wait := wakeup_ready_wait s;
     wakeup_ready_nowait := wakeup_ready_nowait s;
     last_xtime := last_xtime s; curr_xtime := v; last_stime := last_stime s;
     curr_stime := curr_stime s; suspend_count := suspend_count s;
     abort_count := abort_count s; total_xtime := total_xtime s;
     total_stime := total_stime s; total_atime := total_atime s;
     base_irq_nodes := base_irq_nodes s; cur_irq_tree := cur_irq_tree s;
     cur_irq_tree_depth := cur_irq_tree_depth s; node_count := node_count s;
     wakeup_irqs := wakeup_irqs s; log_wakeups := log_wakeups s;
     klog := klog s |}.

Definition set_last_stime (v : timespec) (s : wr_state) : wr_state :=
  {| irq_list := irq_list s; irqcount := irqcount s;
     suspend_abort := suspend_abort s; abort_reason := abort_reason s;
     wakeup_ready_timeout := wakeup_ready_timeout s;
     wakeup_ready_wait := wakeup_ready_wait s;
     wakeup_ready_nowait := wakeup_ready_nowait s;
     last_xtime := last_xtime s; curr_xtime := curr_xtime s; last_stime := v;
     curr_stime := curr_stime s; suspend_count := suspend_count s;
     abort_count := abort_count s; total_xtime := total_xtime s;
     total_stime := total_stime s; total_atime := total_atime s;
     base_irq_nodes := base_irq_nodes s; cur_irq_tree := cur_irq_tree s;
     cur_irq_tree_depth := cur_irq_tree_depth s; node_count := node_count s;
     wakeup_irqs := wakeup_irqs s; log_wakeups := log_wakeups s;
     klog := klog s |}.

Definition set_curr_stime (v : timespec) (s : wr_state) : wr_state :=
  {| irq_list := irq_list s; irqcount := irqcount s;
     suspend_abort := suspend_abort s; abort_reason := abort_reason s;
     wakeup_ready_timeout := wakeup_ready_timeout s;
     wakeup_ready_wait := wakeup_ready_wait s;
     wakeup_ready_nowait := wakeup_ready_nowait s;
     last_xtime := last_xtime s; curr_xtime := curr_xtime s;
     last_stime := last_stime s; curr_stime := v;
     suspend_count := suspend_count s; abort_count := abort_count s;
     total_xtime := total_xtime s; total_stime := total_stime s;
     total_atime := total_atime s; base_irq_nodes := base_irq_nodes s;
     cur_irq_tree := cur_irq_tree s;
     cur_irq_tree_depth := cur_irq_tree_depth s; node_count := node_count s;
     wakeup_irqs := wakeup_irqs s; log_wakeups := log_wakeups s;
     klog := klog s |}.

Definition set_base_irq_nodes (v : irq_tree) (s : wr_state) : wr_state :=
  {| irq_list := irq_list s; irqcount := irqcount s;
     suspend_abort := suspend_abort s; abort_reason := abort_reason s;
     wakeup_ready_timeout := wakeup_ready_timeout s;
     wakeup_ready_wait := wakeup_ready_wait s;
     wakeup_ready_nowait := wakeup_ready_nowait s;
     last_xtime := last_xtime s; curr_xtime := curr_xtime s;
     last_stime := last_stime s; curr_stime := curr_stime s;
     suspend_count := suspend_count s; abort_count := abort_count s;
     total_xtime := total_xtime s; total_stime := total_stime s;
     total_atime := total_atime s; base_irq_nodes := v;
     cur_irq_tree := cur_irq_tree s;
     cur_irq_tree_depth := cur_irq_tree_depth s; node_count := node_count s;
     wakeup_irqs := wakeup_irqs s; log_wakeups := log_wakeups s;
     klog := klog s |}.

Definition set_cur_irq_tree (v : option nat) (s : wr_state) : wr_state :=
  {| irq_list := irq_list s; irqcount := irqcount s;
     suspend_abort := suspend_abort s; abort_reason := abort_reason s;
     wakeup_ready_timeout := wakeup_ready_timeout s;
     wakeup_ready_wait := wakeup_ready_wait s;
     wakeup_ready_nowait := wakeup_ready_nowait s;
     last_xtime := last_xtime s; curr_xtime := curr_xtime s;
     last_stime := last_stime s; curr_stime := curr_stime s;
     suspend_count := suspend_count s; abort_count := abort_count s;
     total_xtime := total_xtime s; total_stime := total_stime s;
     total_atime := total_atime s; base_irq_nodes := base_irq_nodes s;
     cur_irq_tree := v; cur_irq_tree_depth := cur_irq_tree_depth s;
     node_count := node_count s; wakeup_irqs := wakeup_irqs s;
     log_wakeups := log_wakeups s; klog := klog s |}.

Definition set_cur_irq_tree_depth (v : nat) (s : wr_state) : wr_state :=
  {| irq_list := irq_list s; irqcount := irqcount s;
     suspend_abort := suspend_abort s; abort_reason := abort_reason s;
     wakeup_ready_timeout := wakeup_ready_timeout s;
     wakeup_ready_wait := wakeup_ready_wait s;
     wakeup_ready_nowait := wakeup_ready_nowait s;
     last_xtime := last_xtime s; curr_xtime := curr_xtime s;
     last_stime := last_stime s; curr_stime := curr_stime s;
     suspend_count := suspend_count s; abort_count := abort_count s;
     total_xtime := total_xtime s; total_stime := total_stime s;
     total_atime := total_atime s; base_irq_nodes := base_irq_nodes s;
     cur_irq_tree := cur_irq_tree s; cur_irq_tree_depth := v;
     node_count := node_count s; wakeup_irqs := wakeup_irqs s;
     log_wakeups := log_wakeups s; klog := klog s |}.

Definition set_node_count (v : nat) (s : wr_state) : wr_state :=
  {| irq_list := irq_list s; irqcount := irqcount s;
     suspend_abort := suspend_abort s; abort_reason := abort_reason s;
     wakeup_ready_timeout := wakeup_ready_timeout s;
     wakeup_ready_wait := wakeup_ready_wait s;
     wakeup_ready_nowait := wakeup_ready_nowait s;
     last_xtime := last_xtime s; curr_xtime := curr_xtime s;
     last_stime := last_stime s; curr_stime := curr_stime s;
     suspend_count := suspend_count s; abort_count := abort_count s;
     total_xtime := total_xtime s; total_stime := total_stime s;
     total_atime := total_atime s; base_irq_nodes := base_irq_nodes s;
     cur_irq_tree := cur_irq_tree s;
     cur_irq_tree_depth := cur_irq_tree_depth s; node_count := v;
     wakeup_irqs := wakeup_irqs s; log_wakeups := log_wakeups s;
     klog := klog s |}.

Definition set_wakeup_irqs (v : list node_info) (s : wr_state) : wr_state :=
  {| irq_list := irq_list s; irqcount := irqcount s;
     suspend_abort := suspend_abort s; abort_reason := abort_reason s;
     wakeup_ready_timeout := wakeup_ready_timeout s;
     wakeup_ready_wait := wakeup_ready_wait s;
     wakeup_ready_nowait := wakeup_ready_nowait s;
     last_xtime := last_xtime s; curr_xtime := curr_xtime s;
     last_stime := last_stime s; curr_stime := curr_stime s;
     suspend_count := suspend_count s; abort_count := abort_count s;
     total_xtime := total_xtime s; total_stime := total_stime s;
     total_atime := total_atime s; base_irq_nodes := base_irq_nodes s;
     cur_irq_tree := cur_irq_tree s;
     cur_irq_tree_depth := cur_irq_tree_depth s; node_count := node_count s;
     wakeup_irqs := v; log_wakeups := log_wakeups s; klog := klog s |}.

Definition set_log_wakeups (v : bool) (s : wr_state) : wr_state :=
  {| irq_list := irq_list s; irqcount := irqcount s;
     suspend_abort := suspend_abort s; abort_reason := abort_reason s;
     wakeup_ready_timeout := wakeup_ready_timeout s;
     wakeup_ready_wait := wakeup_ready_wait s;
     wakeup_ready_nowait := wakeup_ready_nowait s;
     last_xtime := last_xtime s; curr_xtime := curr_xtime s;
     last_stime := last_stime s; curr_stime := curr_stime s;
     suspend_count := suspend_count s; abort_count := abort_count s;
     total_xtime := total_xtime s; total_stime := total_stime s;
     total_atime := total_atime s; base_irq_nodes := base_irq_nodes s;
     cur_irq_tree := cur_irq_tree s;
     cur_irq_tree_depth := cur_irq_tree_depth s; node_count := node_count s;
     wakeup_irqs := wakeup_irqs s; log_wakeups := v; klog := klog s |}.

Definition set_klog (v : list kmsg) (s : wr_state) : wr_state :=
  {| irq_list := irq_list s; irqcount := irqcount s;
     suspend_abort := suspend_abort s; abort_reason := abort_reason s;
     wakeup_ready_timeout := wakeup_ready_timeout s;
     wakeup_ready_wait := wakeup_ready_wait s;
     wakeup_ready_nowait := wakeup_ready_nowait s;
     last_xtime := last_xtime s; curr_xtime := curr_xtime s;
     last_stime := last_stime s; curr_stime := curr_stime s;
     suspend_count := suspend_count s; abort_count := abort_count s;
     total_xtime := total_xtime s; total_stime := total_stime s;
     total_atime := total_atime s; base_irq_nodes := base_irq_nodes s;
     cur_irq_tree := cur_irq_tree s;
     cur_irq_tree_depth := cur_irq_tree_depth s; node_count := node_count s;
     wakeup_irqs := wakeup_irqs s; log_wakeups := log_wakeups s; klog := v |}.

(** [printk]: one more line at the end of the kernel log. *)
Definition printk (m : kmsg) (s : wr_state) : wr_state := set_klog (klog s ++ [m]) s.

(** ** What a call can end in *)

(** [BUG_ON] stops the kernel: a call either hits one or returns a value
    and the next state. *)
Inductive outcome (A : Type) :=
| BUG
| Returns (a : A) (s : wr_state).

Arguments BUG {A}.
Arguments Returns {A} a s.

(** [PM_SUSPEND_PREPARE], [PM_POST_SUSPEND] and the events that
    [wakeup_reason_pm_event] leaves to its [default:] arm. *)
Inductive pm_event :=
| PM_SUSPEND_PREPARE
| PM_POST_SUSPEND
| PM_OTHER (code : Z).

(** What [get_xtime_and_monotonic_and_sleep_offset] stores when it is
    called: the wall time and the total sleep time (the third value,
    wall_to_monotonic, is ignored by the caller). *)
Record clock_reading := ClockReading { now_xtime : timespec; now_sleep : timespec }.

(** What [begin_node] answers. *)
Inductive begin_result :=
| Began (h : nat)
| CapacityExceeded.

(** The calls that interrupt context makes, as far as this file and the
    spec name them. *)
Inductive producer_call :=
| Call_log_wakeup_reason (i : Z)
| Call_log_suspend_abort_reason (msg : string)
| Call_begin_node (i : Z)
| Call_end_node (h : nat).

(** What [wait_for_completion_timeout] does to its caller: the calls that
    producers made while it slept, and the value it returned (0 when the
    time ran out, the ticks that were left otherwise). *)
Record wait_result := WaitResult {
  wait_during : list producer_call;
  wait_signalled : Z
}.

(** A sequence of interrupt deliveries that nest like brackets: nothing,
    or the delivery of [i], the deliveries [nested] inside its handling,
    the end of its handling, and the deliveries [rest] after it. *)
Inductive deliveries :=
| Done
| Deliver (i : Z) (nested : deliveries) (rest : deliveries).

(** The operations on the state: the functions of the file that other
    code can reach, and the two producers of the spec.  [Op_show] stands
    for the three read-only attributes, [Op_check_wakeup_reason] for the
    two read-only look-ups. *)
Inductive operation :=
| Op_log_wakeup_reason (i : Z)
| Op_check_wakeup_reason (i : Z)
| Op_log_suspend_abort_reason (msg : string)
| Op_begin_node (i : Z)
| Op_end_node (h : nat)
| Op_get_wakeup_reasons (timeout : Z) (w : wait_result)
| Op_clear_wakeup_reasons
| Op_pm_event (e : pm_event) (now : clock_reading)
| Op_show.

(** The return value of [get_wakeup_reasons] ([None] is NULL) and the list
    it leaves in [unfinished]. *)
Record wakeup_reasons := WakeupReasons {
  reasons : option (list node_info);
  unfinished : list node_info
}.

(** The newline character. *)
Definition nl : string := String (Ascii.ascii_of_nat 10) EmptyString.

(** [irq_list[i] = v].  A store below index 0 is outside the array, as is
    one from index 32 on; C leaves both undefined and the model leaves the
    array as it is.  [0 <= irqcount <= 32] keeps the file away from both. *)
Definition store (l : list Z) (i : Z) (v : Z) : list Z :=
  if 0 <=? i then <[Z.to_nat i := v]> l else l.

(** [vsnprintf(buf, size, ...)] for the text [msg] that the format expands
    to: at most [size - 1] characters, then the terminating NUL; nothing
    at all when [size] is 0. *)
Definition vsnprintf (buf : string) (size : nat) (msg : string) : string :=
  match size with
  | O => buf
  | S n => String.substring 0 n msg
  end.

(** ** Initialisation *)

(** The three warnings of [wakeup_reason_init]. *)
Inductive init_warning :=
| Failed_to_register_PM_notifier (retval : Z)
    (* "[%s] failed to register PM notifier %d\n" *)
| Failed_to_create_sysfs_kobject
    (* "[%s] failed to create a sysfs kobject\n" *)
| Failed_to_create_sysfs_group (retval : Z).
    (* "[%s] failed to create a sysfs group %d\n" *)

(** What the three kernel calls of [wakeup_reason_init] answer: the return
    value of [register_pm_notifier], whether [kobject_create_and_add]
    returned a kobject, and the return value of [sysfs_create_group]. *)
Record init_calls := InitCalls {
  register_pm_notifier : Z;
  kobject_create_and_add : bool;
  sysfs_create_group : Z
}.

(** What [wakeup_reason_init] leaves behind: its return value, the
    warnings it printed, whether the global [wakeup_reason] is non-NULL,
    whether [sysfs_create_group] was called, and whether [kobject_put]
    was called on the kobject. *)
Record init_outcome := InitOutcome {
  init_retval : Z;
  init_warnings : list init_warning;
  wakeup_reason_kobject : bool;
  group_requested : bool;
  kobject_put : bool
}.

Definition wakeup_reason_init (c : init_calls) : init_outcome :=
  let warnings :=
    if register_pm_notifier c =? 0 then []
    else [Failed_to_register_PM_notifier (register_pm_notifier c)] in
  if kobject_create_and_add c then
    if sysfs_create_group c =? 0 then InitOutcome 0 warnings true true false
    else InitOutcome 0
           (warnings ++ [Failed_to_create_sysfs_group (sysfs_create_group c)])
           true true true
  else InitOutcome 1 (warnings ++ [Failed_to_create_sysfs_kobject]) false false false.

(** The attributes are readable when the kobject exists and its group
    was created. *)
Definition attributes_visible (c : init_calls) : bool :=
  kobject_create_and_add c && (sysfs_create_group c =? 0).

(** ** Values for the worked examples *)

(** A descriptor table in which no interrupt has a name. *)
Definition unnamed (i : Z) : option string := None.

(** The scenario of the spec: interrupt 17, and interrupt 5 nested in it;
    then interrupt 9. *)
Definition nested_pair : deliveries :=
  Deliver 17 (Deliver 5 Done Done) (Deliver 9 Done Done).

(** Two readings of the clock: 100 s wall time with 20 s of sleep, and
    160.5 s wall time with 70 s of sleep. *)
Definition reading_before : clock_reading :=
  ClockReading (Timespec 100 0) (Timespec 20 0).

Definition reading_after : clock_reading :=
  ClockReading (Timespec 160 500000000) (Timespec 70 0).

(** A show function reports an error by a negative return value. *)
Definition reports_error (r : Z * string) : Prop := r.1 < 0.

(** A forest with no node, no cursor and logging off: the state of the
    tree at boot and after [clear_wakeup_reasons]. *)
Definition forest_empty (s : wr_state) : Prop :=
  base_irq_nodes s = NoNode /\ cur_irq_tree s = None
  /\ node_count s = O /\ log_wakeups s = false.

(** The operations that start a new cycle: they clear the abort flag. *)
Definition starts_cycle (o : operation) : Prop :=
  match o with
  | Op_pm_event PM_SUSPEND_PREPARE _ => True
  | Op_clear_wakeup_reasons => True
  | _ => False
  end.

Section WakeupReason.

(** The width of [unsigned long]. *)
Variable BITS_PER_LONG : Z.

(** The size of [abort_reason], from linux/wakeup_reason.h. *)
Variable MAX_SUSPEND_ABORT_LEN : nat.

(** [irq_to_desc(irq)->action->name], or [None] when the descriptor, its
    action or the name is missing. *)
Variable irq_action_name : Z -> option string.

Variable jiffies_to_msecs : Z -> Z.

(** ** Formatting *)

Definition to_ulong (x : Z) : Z := x mod 2 ^ BITS_PER_LONG.

Definition ULONG_MAX : Z := 2 ^ BITS_PER_LONG - 1.

(** ["%d"] *)
Definition fmt_d (x : Z) : string := pretty x.

(** ["%lu"]: the argument is read as an [unsigned long]. *)
Definition fmt_lu (x : Z) : string := pretty (to_ulong x).

(** ["%09lu"]: the same, with zeros in front up to nine characters. *)
Definition fmt_09lu (x : Z) : string :=
  let digits := fmt_lu x in
  String.concat "" (replicate (9 - String.length digits) "0"%string) +:+ digits.

(** ["%u"] *)
Definition fmt_u (x : Z) : string := pretty (x mod 2 ^ 32).

(** ["%lu.%09lu"] of a [timespec]. *)
Definition fmt_timespec (t : timespec) : string :=
  fmt_lu (tv_sec t) +:+ "." +:+ fmt_09lu (tv_nsec t).

(** What a show function hands back: the number of characters written and
    the buffer. *)
Definition shown (buf : string) : Z * string := (Z.of_nat (String.length buf), buf).

(** ** The sysfs attributes *)

(** The recorded interrupts: the first [irqcount] slots of [irq_list]. *)
Definition recorded_irqs (s : wr_state) : list Z :=
  take (Z.to_nat (irqcount s)) (irq_list s).

Definition resume_reason_line (i : Z) : string :=
  match irq_action_name i with
  | Some name => fmt_d i +:+ " " +:+ name +:+ nl
  | None => fmt_d i +:+ nl
  end.

Definition last_resume_reason_show (s : wr_state) : Z * string :=
  shown (if suspend_abort s then "Abort: " +:+ abort_reason s
         else foldl (fun buf i => buf +:+ resume_reason_line i) "" (recorded_irqs s)).

Definition sleep_time (s : wr_state) : timespec :=
  timespec_sub (curr_stime s) (last_stime s).

Definition total_time (s : wr_state) : timespec :=
  timespec_sub (curr_xtime s) (last_xtime s).

Definition suspend_resume_time (s : wr_state) : timespec :=
  timespec_sub (total_time s) (sleep_time s).

Definition last_suspend_time_show (s : wr_state) : Z * string :=
  shown (fmt_timespec (suspend_resume_time s) +:+ " " +:+
         fmt_timespec (sleep_time s) +:+ nl).

Definition suspend_since_boot_show (s : wr_state) : Z * string :=
  let xtime := timespec_sub (total_xtime s) (total_stime s) in
  shown (fmt_lu (suspend_count s) +:+ " " +:+ fmt_lu (abort_count s) +:+ " " +:+
         fmt_timespec xtime +:+ " " +:+
         fmt_timespec (total_atime s) +:+ " " +:+
         fmt_timespec (total_stime s) +:+ nl +:+
         fmt_lu (wakeup_ready_nowait s) +:+ " " +:+
         fmt_lu (wakeup_ready_timeout s) +:+ " " +:+
         fmt_u (jiffies_to_msecs (wakeup_ready_wait s)) +:+ nl).

(** ** The flat log *)

Definition log_wakeup_reason (i : Z) (s : wr_state) : wr_state :=
  let s := printk (Resume_caused_by_IRQ i (irq_action_name i)) s in
  if irqcount s =? MAX_WAKEUP_REASON_IRQS then
    printk (Resume_caused_by_more_than MAX_WAKEUP_REASON_IRQS) s
  else
    set_irqcount (irqcount s + 1)
      (set_irq_list (store (irq_list s) (irqcount s) i) s).

(** The first of the two [check_wakeup_reason]s, over the flat log. *)
Definition check_wakeup_reason (i : Z) (s : wr_state) : bool :=
  existsb (Z.eqb i) (recorded_irqs s).

(** [msg] is the text that [fmt] and its arguments expand to. *)
Definition log_suspend_abort_reason (msg : string) (s : wr_state) : wr_state :=
  if suspend_abort s then s
  else set_abort_reason (vsnprintf (abort_reason s) MAX_SUSPEND_ABORT_LEN msg)
         (set_suspend_abort true s).

(** ** The producers of the tree *)

(** Modelled from the spec: [logging_wakeup_reasons] and
    [stop_logging_wakeup_reasons] are called here and defined elsewhere;
    they read and clear the spec's [logging_active]. *)
Definition logging_wakeup_reasons (s : wr_state) : bool := log_wakeups s.

Definition stop_logging_wakeup_reasons (s : wr_state) : wr_state :=
  set_log_wakeups false s.

(** Modelled from the spec: [begin_node], which this file does not contain.
    "If a current cursor exists, the new node becomes a child of the
    cursor and the cursor advances to the new node, incrementing depth; a
    depth cap is enforced (analogous to the original fixed slot cap):
    exceeding it fails with CapacityExceeded and the event is dropped with
    a diagnostic.  If no cursor exists, the new node becomes a new root."
    Logging is armed "once the first begin_node occurs". *)
Definition begin_node (i : Z) (s : wr_state) : begin_result * wr_state :=
  if Z.of_nat (cur_irq_tree_depth s) <? MAX_WAKEUP_REASON_IRQS then
    let h := node_count s in
    let new := IrqNode (NodeInfo h i false (cur_irq_tree s)) NoNode NoNode in
    let base :=
      match cur_irq_tree s with
      | Some c => add_child c new (base_irq_nodes s)
      | None => append_sibling new (base_irq_nodes s)
      end in
    (Began h,
     set_log_wakeups true
       (set_node_count (S h)
          (set_cur_irq_tree_depth (S (cur_irq_tree_depth s))
             (set_cur_irq_tree (Some h) (set_base_irq_nodes base s)))))
  else (CapacityExceeded, printk (Wakeup_irq_dropped i) s).

(** Modelled from the spec: [end_node], which this file does not contain.
    "Marks the node handled; if this is the current cursor, the cursor
    retreats to its parent.  Calling end_node on an unknown or
    already-handled handle is a no-op."  The call that leaves no node
    unhandled is the one that signals the completion; from then on logging
    is off, which is what [get_wakeup_reasons] relies on when it goes on to
    [get_wakeup_reasons_nosync] after a signalled wait. *)
Definition end_node (h : nat) (s : wr_state) : wr_state :=
  match find_node h (base_irq_nodes s) with
  | Some (n, _) =>
      if handled n then s
      else
        let base := mark_handled h (base_irq_nodes s) in
        let s := set_base_irq_nodes base s in
        let s :=
          if bool_decide (cur_irq_tree s = Some h)
          then set_cur_irq_tree_depth (Nat.pred (cur_irq_tree_depth s))
                 (set_cur_irq_tree (parent n) s)
          else s in
        if all_handled base then stop_logging_wakeup_reasons s else s
  | None => s
  end.

Definition run_producer (c : producer_call) (s : wr_state) : wr_state :=
  match c with
  | Call_log_wakeup_reason i => log_wakeup_reason i s
  | Call_log_suspend_abort_reason msg => log_suspend_abort_reason msg s
  | Call_begin_node i => (begin_node i s).2
  | Call_end_node h => end_node h s
  end.

Definition run_producers (cs : list producer_call) (s : wr_state) : wr_state :=
  foldl (fun s c => run_producer c s) s cs.

(** A bracketed sequence of deliveries, as calls: every delivery is a
    [begin_node], and its [end_node] comes after the deliveries nested in
    it.  A delivery that [begin_node] drops has no handle to end. *)
Fixpoint deliver (ds : deliveries) (s : wr_state) : wr_state :=
  match ds with
  | Done => s
  | Deliver i nested rest =>
      match begin_node i s with
      | (Began h, s1) => deliver rest (end_node h (deliver nested s1))
      | (CapacityExceeded, s1) => deliver rest (deliver nested s1)
      end
  end.

(** ** The consumers of the tree *)

Definition match_node (i : Z) (n : node_info) (child : irq_tree) (u : unit)
  : bool * unit :=
  (negb (irq n =? i), u).

(** The second [check_wakeup_reason], over the tree (the C file gives both
    the same name). *)
Definition check_wakeup_reason_nodes (i : Z) (s : wr_state) : bool :=
  negb (walk_irq_node_tree (base_irq_nodes s) (match_node i) tt).1.

(** [list_add(&n->next, wakeups)] links the node right behind the list
    head: a list read from its head starts with the node added last. *)
Definition build_leaf_nodes (n : node_info) (child : irq_tree)
    (wakeups : list node_info) : bool * list node_info :=
  (true, if is_NoNode child then n :: wakeups else wakeups).

Definition get_wakeup_reasons_nosync (s : wr_state) : outcome (list node_info) :=
  if logging_wakeup_reasons s then BUG
  else
    let wakeups := (walk_irq_node_tree (base_irq_nodes s) build_leaf_nodes []).2 in
    Returns wakeups (set_wakeup_irqs wakeups s).

(** The cookie is the list under construction; the kernel log, which the
    warning extends, travels with it. *)
Definition build_unfinished_nodes (n : node_info) (child : irq_tree)
    (c : list node_info * list kmsg) : bool * (list node_info * list kmsg) :=
  (true, if handled n then c
         else (n :: c.1, c.2 ++ [Wakeup_irq_not_handled (irq n)])).

(** [w] is what the wait does if the call gets to it. *)
Definition get_wakeup_reasons (timeout : Z) (w : wait_result) (s : wr_state)
  : outcome wakeup_reasons :=
  if logging_wakeup_reasons s then
    let '(signalled, s) :=
      if timeout =? 0 then (0, s)
      else (wait_signalled w, run_producers (wait_during w) s) in
    if signalled =? 0 then
      let s := printk Completion_timeout s in
      let s := set_wakeup_ready_timeout (to_ulong (wakeup_ready_timeout s + 1)) s in
      let s := stop_logging_wakeup_reasons s in
      let c := (walk_irq_node_tree (base_irq_nodes s) build_unfinished_nodes
                  ([], klog s)).2 in
      Returns (WakeupReasons None c.1) (set_klog c.2 s)
    else
      let time_waited := to_ulong (timeout - signalled) in
      let s := printk (Waited_for time_waited) s in
      let s := if wakeup_ready_wait s <? time_waited
               then set_wakeup_ready_wait time_waited s else s in
      match get_wakeup_reasons_nosync s with
      | BUG => BUG
      | Returns wakeups s => Returns (WakeupReasons (Some wakeups) []) s
      end
  else
    let s := set_wakeup_ready_nowait (to_ulong (wakeup_ready_nowait s + 1)) s in
    match get_wakeup_reasons_nosync s with
    | BUG => BUG
    | Returns wakeups s => Returns (WakeupReasons (Some wakeups) []) s
    end.

(** The cookie counts the nodes given back to [wakeup_irq_nodes_cache]. *)
Definition delete_node (n : node_info) (child : irq_tree) (freed : nat)
  : bool * nat :=
  (true, S freed).

Definition clear_wakeup_reasons_nolock (s : wr_state) : outcome unit :=
  if logging_wakeup_reasons s then BUG
  else
    let freed := (walk_irq_node_tree (base_irq_nodes s) delete_node O).2 in
    Returns tt
      (set_suspend_abort false
         (set_wakeup_irqs []
            (set_cur_irq_tree_depth O
               (set_cur_irq_tree None
                  (set_base_irq_nodes NoNode
                     (set_node_count (node_count s - freed)%nat s)))))).

Definition clear_wakeup_reasons (s : wr_state) : outcome unit :=
  clear_wakeup_reasons_nolock s.

(** ** The power-management notifier *)

(** [now] is what the time source answers; the return value is always
    [NOTIFY_DONE]. *)
Definition wakeup_reason_pm_event (e : pm_event) (now : clock_reading)
    (s : wr_state) : wr_state :=
  match e with
  | PM_SUSPEND_PREPARE =>
      let s := set_suspend_abort false (set_irqcount 0 s) in
      set_last_stime (now_sleep now) (set_last_xtime (now_xtime now) s)
  | PM_POST_SUSPEND =>
      set_curr_stime (now_sleep now) (set_curr_xtime (now_xtime now) s)
  | PM_OTHER _ => s
  end.

(** ** Every operation *)

(** The state after an operation, or [None] when it runs into a [BUG_ON]. *)
Definition step (o : operation) (s : wr_state) : option wr_state :=
  match o with
  | Op_log_wakeup_reason i => Some (log_wakeup_reason i s)
  | Op_check_wakeup_reason _ => Some s
  | Op_log_suspend_abort_reason msg => Some (log_suspend_abort_reason msg s)
  | Op_begin_node i => Some (begin_node i s).2
  | Op_end_node h => Some (end_node h s)
  | Op_get_wakeup_reasons timeout w =>
      match get_wakeup_reasons timeout w s with
      | BUG => None
      | Returns _ s' => Some s'
      end
  | Op_clear_wakeup_reasons =>
      match clear_wakeup_reasons s with
      | BUG => None
      | Returns _ s' => Some s'
      end
  | Op_pm_event e now => Some (wakeup_reason_pm_event e now s)
  | Op_show => Some s
  end.

(** ** The spec's words, to compare with *)

(** The nodes in insertion order: by handle, from the first allocated. *)
Definition in_insertion_order (s : wr_state) : list (node_info * irq_tree) :=
  omap (fun h => find_node h (base_irq_nodes s)) (seq 0 (node_count s)).

(** "Every node with no children, in insertion order". *)
Definition leaves_in_insertion_order (s : wr_state) : list node_info :=
  (List.filter (fun e => is_NoNode e.2) (in_insertion_order s)).*1.

(** "Every node with [handled == false]", in the order of the walk. *)
Definition unhandled_nodes (s : wr_state) : list node_info :=
  List.filter (fun n => negb (handled n)) (visited (base_irq_nodes s)).*1.

(** A duration is negative when its seconds are: the nanoseconds of a
    normalised [timespec] never are. *)
Definition negative (t : timespec) : Prop := tv_sec t < 0.

(** ** Invariants *)

(** The flat log stays within its array. *)
Definition flat_ok (s : wr_state) : Prop :=
  0 <= irqcount s <= MAX_WAKEUP_REASON_IRQS /\ length (irq_list s) = 32%nat.

(** The nodes of the tree have their handles in allocation order, every
    [parent] field names the node above, the cursor lies on the path from
    the last root through last children, and logging is on exactly while
    some node is unhandled. *)
Definition forest_ok (s : wr_state) : Prop :=
  handles (base_irq_nodes s) = seq 0 (node_count s)
  /\ well_parented None (base_irq_nodes s)
  /\ (forall c, cur_irq_tree s = Some c -> on_spine c (base_irq_nodes s))
  /\ log_wakeups s = negb (all_handled (base_irq_nodes s)).

(** ** Sequences of operations *)

Fixpoint steps (os : list operation) (s : wr_state) : option wr_state :=
  match os with
  | [] => Some s
  | o :: os =>
      match step o s with
      | Some s' => steps os s'
      | None => None
      end
  end.

(** * Properties *)

(** ** Text *)

Lemma substring_length (n : nat) (msg : string) :
  String.length (String.substring 0 n msg) = Nat.min n (String.length msg).
Proof.
  revert msg; induction n as [|n IH]; intros [|c msg]; simpl; auto.
Qed.

Lemma substring_prefix (n : nat) (msg : string) :
  exists rest, msg = String.substring 0 n msg +:+ rest.
Proof.
  revert msg; induction n as [|n IH]; intros [|c msg]; simpl.
  - by exists EmptyString.
  - by exists (String c msg).
  - by exists EmptyString.
  - destruct (IH msg) as [rest Hrest]. exists rest.
    change (String c msg = String c (String.substring 0 n msg +:+ rest)).
    by f_equal.
Qed.

Lemma substring_all (n : nat) (msg : string) :
  (String.length msg <= n)%nat -> String.substring 0 n msg = msg.
Proof.
  revert msg; induction n as [|n IH]; intros [|c msg]; simpl; intros Hlen;
    try done; try lia.
  f_equal. apply IH. lia.
Qed.

(** ** Unsigned long *)

Lemma to_ulong_small (x : Z) : 0 <= x <= ULONG_MAX -> to_ulong x = x.
Proof.
  unfold to_ulong, ULONG_MAX. intros H. apply Z.mod_small. lia.
Qed.

Lemma to_ulong_succ (x : Z) : 0 <= x < ULONG_MAX -> to_ulong (x + 1) = x + 1.
Proof. intros H. apply to_ulong_small. lia. Qed.

(** ** The flat log *)

Lemma log_wakeup_reason_full (i : Z) (s : wr_state) :
  irqcount s = MAX_WAKEUP_REASON_IRQS ->
  log_wakeup_reason i s =
    set_klog (klog s ++ [Resume_caused_by_IRQ i (irq_action_name i);
                         Resume_caused_by_more_than MAX_WAKEUP_REASON_IRQS]) s.
Proof.
  intros Hfull. unfold log_wakeup_reason, printk. simpl. rewrite Hfull. simpl.
  unfold set_klog. simpl. by rewrite <- app_assoc.
Qed.

(** C5.  When [irqcount] has reached [MAX_WAKEUP_REASON_IRQS],
    [log_wakeup_reason] drops the interrupt: it prints its two lines, the
    second being the warning about too many interrupts, and changes nothing
    else; the recorded interrupts and their count are as before. *)
Theorem log_wakeup_reason_at_capacity (i : Z) (s : wr_state) :
  irqcount s = MAX_WAKEUP_REASON_IRQS ->
  log_wakeup_reason i s =
    set_klog (klog s ++ [Resume_caused_by_IRQ i (irq_action_name i);
                         Resume_caused_by_more_than MAX_WAKEUP_REASON_IRQS]) s
  /\ irq_list (log_wakeup_reason i s) = irq_list s
  /\ irqcount (log_wakeup_reason i s) = irqcount s
  /\ recorded_irqs (log_wakeup_reason i s) = recorded_irqs s.
Proof.
  intros Hfull. rewrite (log_wakeup_reason_full i s Hfull). by repeat split.
Qed.

(** Below the limit the interrupt goes into the next free slot. *)
Lemma log_wakeup_reason_records (i : Z) (s : wr_state) :
  flat_ok s -> irqcount s < MAX_WAKEUP_REASON_IRQS ->
  recorded_irqs (log_wakeup_reason i s) = recorded_irqs s ++ [i]
  /\ flat_ok (log_wakeup_reason i s).
Proof.
  intros [[Hlo Hhi] Hlen] Hroom.
  unfold log_wakeup_reason, printk. simpl.
  destruct (Z.eqb_spec (irqcount s) MAX_WAKEUP_REASON_IRQS) as [Heq|_]; [lia|].
  unfold recorded_irqs, flat_ok, store, MAX_WAKEUP_REASON_IRQS in *. simpl.
  destruct (Z.leb_spec 0 (irqcount s)) as [_|]; [|lia].
  rewrite length_insert. split; [|lia].
  replace (Z.to_nat (irqcount s + 1)) with (S (Z.to_nat (irqcount s))) by lia.
  assert (Hin : (Z.to_nat (irqcount s) < length (irq_list s))%nat) by lia.
  destruct (lookup_lt_is_Some_2 _ _ Hin) as [old Hold].
  rewrite (take_S_r _ _ i).
  - f_equal. by rewrite take_insert_ge.
  - by apply list_lookup_insert_eq.
Qed.

(** The limit is never passed. *)
Lemma log_wakeup_reason_flat_ok (i : Z) (s : wr_state) :
  flat_ok s -> flat_ok (log_wakeup_reason i s).
Proof.
  intros Hok.
  destruct (Z.eq_dec (irqcount s) MAX_WAKEUP_REASON_IRQS) as [Heq|Hne].
  - rewrite (log_wakeup_reason_full i s Heq). exact Hok.
  - apply log_wakeup_reason_records; [done|]. destruct Hok as [[? ?] ?]. lia.
Qed.

(** ** The abort flag *)

(** Unfolds the operations down to record projections. *)
Ltac unfold_ops :=
  unfold run_producer, log_wakeup_reason, log_suspend_abort_reason,
    begin_node, end_node, stop_logging_wakeup_reasons, logging_wakeup_reasons,
    printk in *.

(** Once the flag is set, no producer touches the flag or the reason. *)
Lemma run_producer_abort (c : producer_call) (s : wr_state) :
  suspend_abort s = true ->
  suspend_abort (run_producer c s) = true
  /\ abort_reason (run_producer c s) = abort_reason s.
Proof.
  intros Hset. destruct c; unfold_ops; simpl; repeat case_match; simpl;
    try done; congruence.
Qed.

Lemma run_producers_abort (cs : list producer_call) (s : wr_state) :
  suspend_abort s = true ->
  suspend_abort (run_producers cs s) = true
  /\ abort_reason (run_producers cs s) = abort_reason s.
Proof.
  revert s; induction cs as [|c cs IH]; intros s Hset; [done|].
  destruct (run_producer_abort c s Hset) as [Hflag Hreason].
  destruct (IH _ Hflag) as [Hflag' Hreason'].
  unfold run_producers in *. simpl. split; congruence.
Qed.

Lemma step_abort (o : operation) (s s' : wr_state) :
  ~ starts_cycle o -> step o s = Some s' -> suspend_abort s = true ->
  suspend_abort s' = true /\ abort_reason s' = abort_reason s.
Proof.
  intros Hcycle Hstep Hset. destruct o; simpl in Hstep.
  - inversion Hstep; subst. apply (run_producer_abort (Call_log_wakeup_reason i) s Hset).
  - by inversion Hstep; subst.
  - inversion Hstep; subst.
    apply (run_producer_abort (Call_log_suspend_abort_reason msg) s Hset).
  - inversion Hstep; subst. apply (run_producer_abort (Call_begin_node i) s Hset).
  - inversion Hstep; subst. apply (run_producer_abort (Call_end_node h) s Hset).
  - destruct (run_producers_abort (wait_during w) s Hset) as [Hflag Hreason].
    unfold get_wakeup_reasons, get_wakeup_reasons_nosync, logging_wakeup_reasons,
      stop_logging_wakeup_reasons, printk in Hstep.
    repeat case_match; simplify_eq; simpl; done.
  - by destruct Hcycle.
  - destruct e; simpl in *; [by destruct Hcycle| |]; by inversion Hstep; subst.
  - by inversion Hstep; subst.
Qed.

Lemma steps_abort (os : list operation) (s s' : wr_state) :
  Forall (fun o => ~ starts_cycle o) os -> steps os s = Some s' ->
  suspend_abort s = true ->
  suspend_abort s' = true /\ abort_reason s' = abort_reason s.
Proof.
  revert s; induction os as [|o os IH]; intros s Hcycle Hsteps Hset; simpl in Hsteps.
  - by inversion Hsteps; subst.
  - inversion Hcycle as [|? ? Ho Hos]; subst.
    destruct (step o s) as [s1|] eqn:Hstep; [|done].
    destruct (step_abort o s s1 Ho Hstep Hset) as [Hflag Hreason].
    destruct (IH s1 Hos Hsteps Hflag) as [Hflag' Hreason'].
    split; congruence.
Qed.

(** The first call of a cycle sets the flag and stores the reason, cut to
    the size of the buffer. *)
Lemma log_suspend_abort_reason_first (msg : string) (s : wr_state) :
  (0 < MAX_SUSPEND_ABORT_LEN)%nat -> suspend_abort s = false ->
  log_suspend_abort_reason msg s =
    set_abort_reason (String.substring 0 (MAX_SUSPEND_ABORT_LEN - 1) msg)
      (set_suspend_abort true s).
Proof.
  intros Hsize Hclear. unfold log_suspend_abort_reason. rewrite Hclear.
  destruct MAX_SUSPEND_ABORT_LEN as [|n]; [lia|]. simpl.
  by rewrite Nat.sub_0_r.
Qed.

Lemma log_suspend_abort_reason_again (msg : string) (s : wr_state) :
  suspend_abort s = true -> log_suspend_abort_reason msg s = s.
Proof. intros Hset. unfold log_suspend_abort_reason. by rewrite Hset. Qed.

(** C7.  In a cycle whose abort flag is still clear, the first
    [log_suspend_abort_reason] sets the flag and stores its reason cut to
    [MAX_SUSPEND_ABORT_LEN - 1] characters, and changes nothing else; after
    it, whatever else happens in the cycle, the flag stays set, the stored
    reason stays that of the first call, and another
    [log_suspend_abort_reason] changes no state at all. *)
Theorem log_suspend_abort_reason_once (first second : string)
    (os : list operation) (s s' : wr_state) :
  (0 < MAX_SUSPEND_ABORT_LEN)%nat ->
  suspend_abort s = false ->
  Forall (fun o => ~ starts_cycle o) os ->
  steps os (log_suspend_abort_reason first s) = Some s' ->
  log_suspend_abort_reason first s =
    set_abort_reason (String.substring 0 (MAX_SUSPEND_ABORT_LEN - 1) first)
      (set_suspend_abort true s)
  /\ String.length (String.substring 0 (MAX_SUSPEND_ABORT_LEN - 1) first)
     = Nat.min (MAX_SUSPEND_ABORT_LEN - 1) (String.length first)
  /\ suspend_abort s' = true
  /\ abort_reason s' = String.substring 0 (MAX_SUSPEND_ABORT_LEN - 1) first
  /\ log_suspend_abort_reason second s' = s'.
Proof.
  intros Hsize Hclear Hcycle Hsteps.
  pose proof (log_suspend_abort_reason_first first s Hsize Hclear) as Hfirst.
  rewrite Hfirst in Hsteps.
  destruct (steps_abort os _ s' Hcycle Hsteps eq_refl) as [Hflag Hreason].
  repeat split; try done.
  - apply substring_length.
  - by apply log_suspend_abort_reason_again.
Qed.

(** C4, as the code has it.  The report is "Abort: " and the reason of the
    first [log_suspend_abort_reason] of the cycle, cut to
    [MAX_SUSPEND_ABORT_LEN - 1] characters, whatever was recorded before
    that call and whatever happens in the cycle after it; for a reason
    that fits the buffer this is "Abort: " and the reason itself. *)
Theorem abort_report_precedence (x : string) (os : list operation)
    (s s' : wr_state) :
  (0 < MAX_SUSPEND_ABORT_LEN)%nat ->
  suspend_abort s = false ->
  Forall (fun o => ~ starts_cycle o) os ->
  steps os (log_suspend_abort_reason x s) = Some s' ->
  last_resume_reason_show s' =
    shown ("Abort: " +:+ String.substring 0 (MAX_SUSPEND_ABORT_LEN - 1) x)
  /\ ((String.length x < MAX_SUSPEND_ABORT_LEN)%nat ->
      last_resume_reason_show s' = shown ("Abort: " +:+ x)).
Proof.
  intros Hsize Hclear Hcycle Hsteps.
  rewrite (log_suspend_abort_reason_first x s Hsize Hclear) in Hsteps.
  destruct (steps_abort os _ s' Hcycle Hsteps eq_refl) as [Hflag Hreason].
  simpl in Hreason.
  assert (Hshow : last_resume_reason_show s' =
    shown ("Abort: " +:+ String.substring 0 (MAX_SUSPEND_ABORT_LEN - 1) x)).
  { unfold last_resume_reason_show. by rewrite Hflag, Hreason. }
  split; [done|]. intros Hfits. rewrite Hshow.
  rewrite substring_all; [done|lia].
Qed.

(** ** The walk *)

Lemma nodes_IrqNode (n : node_info) (child siblings : irq_tree) :
  nodes (IrqNode n child siblings) = n :: nodes child ++ nodes siblings.
Proof. unfold nodes. simpl. by rewrite fmap_app. Qed.

(** The walk visits the nodes from the one inserted last to the one
    inserted first. *)
Lemma visited_entries (t : irq_tree) : visited t = rev (entries t).
Proof.
  induction t as [|n child IHc siblings IHs]; [done|]. simpl.
  by rewrite rev_app_distr, IHc, IHs, <- app_assoc.
Qed.

Lemma visited_nodes (t : irq_tree) : (visited t).*1 = rev (nodes t).
Proof.
  unfold nodes. rewrite visited_entries.
  induction (entries t) as [|e l IH]; [done|]. simpl.
  by rewrite fmap_app, IH.
Qed.

Lemma visited_IrqNode (n : node_info) (child siblings : irq_tree) :
  (visited (IrqNode n child siblings)).*1
  = (visited siblings).*1 ++ (visited child).*1 ++ [n].
Proof. simpl. by rewrite !fmap_app. Qed.

Lemma leaf_nodes_IrqNode (n : node_info) (child siblings : irq_tree) :
  leaf_nodes (IrqNode n child siblings) =
    leaf_nodes siblings ++ leaf_nodes child ++ (if is_NoNode child then [n] else []).
Proof.
  unfold leaf_nodes. simpl. rewrite !List.filter_app, !fmap_app. simpl.
  by destruct (is_NoNode child).
Qed.


(** A walk with [build_leaf_nodes] goes through the whole forest and puts
    every leaf in front of the ones it met before. *)
Lemma walk_build_leaf_nodes (t : irq_tree) (wakeups : list node_info) :
  walk_irq_node_tree t build_leaf_nodes wakeups
  = (true, rev (leaf_nodes t) ++ wakeups).
Proof.
  revert wakeups; induction t as [|n child IHc siblings IHs]; intros wakeups;
    [done|].
  simpl. rewrite IHs, IHc, leaf_nodes_IrqNode, !rev_app_distr, <- !app_assoc.
  unfold build_leaf_nodes. by destruct (is_NoNode child).
Qed.

Lemma walk_build_unfinished_nodes (t : irq_tree) (found : list node_info)
    (log : list kmsg) :
  walk_irq_node_tree t build_unfinished_nodes (found, log)
  = (true, (rev (List.filter (fun n => negb (handled n)) (visited t).*1) ++ found,
            log ++ ((fun n => Wakeup_irq_not_handled (irq n)) <$>
                    List.filter (fun n => negb (handled n)) (visited t).*1))).
Proof.
  revert found log; induction t as [|n child IHc siblings IHs];
    intros found log.
  - simpl. by rewrite app_nil_r.
  - rewrite visited_IrqNode. cbn [walk_irq_node_tree build_unfinished_nodes].
    rewrite IHs, IHc, !List.filter_app. unfold build_unfinished_nodes.
    cbn [List.filter fst snd].
    destruct (handled n); cbn [negb fst snd].
    + by rewrite !app_nil_r, rev_app_distr, fmap_app, <- !app_assoc.
    + rewrite !rev_app_distr, !fmap_app. cbn [rev fmap list_fmap app].
      by rewrite <- !app_assoc.
Qed.

Lemma walk_delete_node (t : irq_tree) (freed : nat) :
  walk_irq_node_tree t delete_node freed = (true, (freed + length (nodes t))%nat).
Proof.
  revert freed; induction t as [|n child IHc siblings IHs]; intros freed.
  - simpl. by rewrite Nat.add_0_r.
  - rewrite nodes_IrqNode. cbn [walk_irq_node_tree delete_node].
    rewrite IHs, IHc. unfold delete_node. f_equal.
    cbn [length]. rewrite length_app. lia.
Qed.

(** ** Waiting for the producers *)

(** No producer touches the counters of the wait. *)
Lemma run_producer_counters (c : producer_call) (s : wr_state) :
  wakeup_ready_timeout (run_producer c s) = wakeup_ready_timeout s
  /\ wakeup_ready_wait (run_producer c s) = wakeup_ready_wait s
  /\ wakeup_ready_nowait (run_producer c s) = wakeup_ready_nowait s
  /\ suspend_count (run_producer c s) = suspend_count s
  /\ abort_count (run_producer c s) = abort_count s.
Proof. destruct c; unfold_ops; simpl; repeat case_match; done. Qed.

Lemma run_producers_counters (cs : list producer_call) (s : wr_state) :
  wakeup_ready_timeout (run_producers cs s) = wakeup_ready_timeout s
  /\ wakeup_ready_wait (run_producers cs s) = wakeup_ready_wait s
  /\ wakeup_ready_nowait (run_producers cs s) = wakeup_ready_nowait s
  /\ suspend_count (run_producers cs s) = suspend_count s
  /\ abort_count (run_producers cs s) = abort_count s.
Proof.
  revert s; induction cs as [|c cs IH]; intros s; [done|].
  unfold run_producers in *. simpl.
  destruct (IH (run_producer c s)) as (-> & -> & -> & -> & ->).
  apply run_producer_counters.
Qed.

(** What [get_wakeup_reasons] does from the state [woken] in which the
    wait, if any, has left it with nothing signalled. *)
Lemma timed_out_path (woken : wr_state) :
  let s1 := stop_logging_wakeup_reasons
              (set_wakeup_ready_timeout (to_ulong (wakeup_ready_timeout woken + 1))
                 (printk Completion_timeout woken)) in
  let c := (walk_irq_node_tree (base_irq_nodes s1) build_unfinished_nodes
              ([], klog s1)).2 in
  Returns (WakeupReasons None c.1) (set_klog c.2 s1)
  = Returns (WakeupReasons None (rev (unhandled_nodes woken)))
      (set_klog (klog woken ++ Completion_timeout ::
                   ((fun n => Wakeup_irq_not_handled (irq n)) <$> unhandled_nodes woken))
         (set_log_wakeups false
            (set_wakeup_ready_timeout (to_ulong (wakeup_ready_timeout woken + 1))
               woken))).
Proof.
  simpl. rewrite walk_build_unfinished_nodes. simpl.
  unfold unhandled_nodes. rewrite app_nil_r, <- app_assoc. done.
Qed.



(** C10.  With logging on and a timeout of 0, [get_wakeup_reasons] never
    gets to the wait: whatever the wait would have done, the call returns
    NULL with the unhandled nodes in [unfinished], stops logging and does
    [wakeup_ready_timeout++], exactly as after a wait that ran out with
    the producers idle. *)
Theorem get_wakeup_reasons_zero_timeout (w : wait_result) (s : wr_state) :
  logging_wakeup_reasons s = true ->
  get_wakeup_reasons 0 w s =
    Returns (WakeupReasons None (rev (unhandled_nodes s)))
      (set_klog (klog s ++ Completion_timeout ::
                   ((fun n => Wakeup_irq_not_handled (irq n)) <$> unhandled_nodes s))
         (set_log_wakeups false
            (set_wakeup_ready_timeout (to_ulong (wakeup_ready_timeout s + 1)) s)))
  /\ (forall timeout,
        get_wakeup_reasons 0 w s = get_wakeup_reasons timeout (WaitResult [] 0) s)
  /\ (0 <= wakeup_ready_timeout s < ULONG_MAX ->
      to_ulong (wakeup_ready_timeout s + 1) = wakeup_ready_timeout s + 1).
Proof.
  intros Hon.
  assert (Hzero : get_wakeup_reasons 0 w s =
    Returns (WakeupReasons None (rev (unhandled_nodes s)))
      (set_klog (klog s ++ Completion_timeout ::
                   ((fun n => Wakeup_irq_not_handled (irq n)) <$> unhandled_nodes s))
         (set_log_wakeups false
            (set_wakeup_ready_timeout (to_ulong (wakeup_ready_timeout s + 1)) s)))).
  { unfold get_wakeup_reasons. rewrite Hon. exact (timed_out_path s). }
  split; [done|split].
  - intros timeout. rewrite Hzero. unfold get_wakeup_reasons. rewrite Hon.
    destruct (timeout =? 0); symmetry; exact (timed_out_path s).
  - apply to_ulong_succ.
Qed.

(** C2.  With logging on, when the wait runs out (it returns 0),
    [get_wakeup_reasons] returns NULL and leaves in [unfinished] exactly
    the nodes that are unhandled at that moment; it stops logging and
    does [wakeup_ready_timeout++]; the tree stays as the producers left
    it. *)
Theorem get_wakeup_reasons_timeout (timeout : Z) (w : wait_result)
    (s : wr_state) :
  logging_wakeup_reasons s = true ->
  timeout <> 0 ->
  wait_signalled w = 0 ->
  let woken := run_producers (wait_during w) s in
  get_wakeup_reasons timeout w s =
    Returns (WakeupReasons None (rev (unhandled_nodes woken)))
      (set_klog (klog woken ++ Completion_timeout ::
                   ((fun n => Wakeup_irq_not_handled (irq n)) <$> unhandled_nodes woken))
         (set_log_wakeups false
            (set_wakeup_ready_timeout (to_ulong (wakeup_ready_timeout s + 1))
               woken)))
  /\ (forall n, n ∈ rev (unhandled_nodes woken) <->
                n ∈ nodes (base_irq_nodes woken) /\ handled n = false)
  /\ (0 <= wakeup_ready_timeout s < ULONG_MAX ->
      to_ulong (wakeup_ready_timeout s + 1) = wakeup_ready_timeout s + 1).
Proof.
  intros Hon Htimeout Hout woken. split; [|split].
  - unfold get_wakeup_reasons. rewrite Hon, Hout.
    destruct (Z.eqb_spec timeout 0) as [|_]; [done|].
    destruct (run_producers_counters (wait_during w) s) as [<- _].
    exact (timed_out_path woken).
  - intros n. unfold unhandled_nodes.
    rewrite !list_elem_of_In, <- in_rev, filter_In, negb_true_iff.
    by rewrite visited_nodes, <- in_rev.
  - apply to_ulong_succ.
Qed.

(** ** Counters *)

Lemma get_wakeup_reasons_counters (timeout : Z) (w : wait_result)
    (s s' : wr_state) (r : wakeup_reasons) :
  get_wakeup_reasons timeout w s = Returns r s' ->
  suspend_count s' = suspend_count s
  /\ abort_count s' = abort_count s
  /\ wakeup_ready_wait s <= wakeup_ready_wait s'
  /\ (wakeup_ready_timeout s' = wakeup_ready_timeout s
      \/ wakeup_ready_timeout s' = to_ulong (wakeup_ready_timeout s + 1))
  /\ (wakeup_ready_nowait s' = wakeup_ready_nowait s
      \/ wakeup_ready_nowait s' = to_ulong (wakeup_ready_nowait s + 1)).
Proof.
  intros Hrun.
  destruct (run_producers_counters (wait_during w) s)
    as (Htimeout & Hwait & Hnowait & Hsuspend & Habort).
  unfold get_wakeup_reasons, get_wakeup_reasons_nosync, logging_wakeup_reasons,
    stop_logging_wakeup_reasons, printk in Hrun.
  repeat case_match; simplify_eq; simpl in *;
    rewrite ?Htimeout, ?Hwait, ?Hnowait, ?Hsuspend, ?Habort;
    repeat split; auto; lia.
Qed.

Lemma step_counters (o : operation) (s s' : wr_state) :
  step o s = Some s' ->
  suspend_count s' = suspend_count s
  /\ abort_count s' = abort_count s
  /\ wakeup_ready_wait s <= wakeup_ready_wait s'
  /\ (wakeup_ready_timeout s' = wakeup_ready_timeout s
      \/ wakeup_ready_timeout s' = to_ulong (wakeup_ready_timeout s + 1))
  /\ (wakeup_ready_nowait s' = wakeup_ready_nowait s
      \/ wakeup_ready_nowait s' = to_ulong (wakeup_ready_nowait s + 1)).
Proof.
  intros Hstep.
  assert (Hproducer : forall c, s' = run_producer c s ->
    suspend_count s' = suspend_count s
    /\ abort_count s' = abort_count s
    /\ wakeup_ready_wait s <= wakeup_ready_wait s'
    /\ (wakeup_ready_timeout s' = wakeup_ready_timeout s
        \/ wakeup_ready_timeout s' = to_ulong (wakeup_ready_timeout s + 1))
    /\ (wakeup_ready_nowait s' = wakeup_ready_nowait s
        \/ wakeup_ready_nowait s' = to_ulong (wakeup_ready_nowait s + 1))).
  { intros c ->.
    destruct (run_producer_counters c s) as (-> & -> & -> & -> & ->).
    repeat split; auto; lia. }
  destruct o; simpl in Hstep.
  - apply (Hproducer (Call_log_wakeup_reason i)). by inversion Hstep.
  - inversion Hstep; subst. repeat split; auto; lia.
  - apply (Hproducer (Call_log_suspend_abort_reason msg)). by inversion Hstep.
  - apply (Hproducer (Call_begin_node i)). by inversion Hstep.
  - apply (Hproducer (Call_end_node h)). by inversion Hstep.
  - destruct (get_wakeup_reasons timeout w s) as [|r s1] eqn:Hrun; [done|].
    inversion Hstep; subst. by apply (get_wakeup_reasons_counters timeout w s s' r).
  - unfold clear_wakeup_reasons, clear_wakeup_reasons_nolock in Hstep.
    destruct (logging_wakeup_reasons s); [done|].
    inversion Hstep; subst. simpl. repeat split; auto; lia.
  - inversion Hstep; subst. destruct e; simpl; repeat split; auto; lia.
  - inversion Hstep; subst. repeat split; auto; lia.
Qed.

(** C6, as the code has it.  [PM_SUSPEND_PREPARE] sets [irqcount] to 0,
    clears [suspend_abort] and stores the time stamps of the moment in
    [last_xtime] and [last_stime]; [PM_POST_SUSPEND] stores them in
    [curr_xtime] and [curr_stime]; neither changes anything else, the five
    counters included.  No operation changes [suspend_count] or
    [abort_count] or lowers [wakeup_ready_wait]; [wakeup_ready_timeout] and
    [wakeup_ready_nowait] are left alone or incremented as unsigned longs,
    so they do not decrease unless they stand at [ULONG_MAX]. *)
Theorem pm_event_frame_and_counters (now : clock_reading) (o : operation)
    (s s' : wr_state) :
  step o s = Some s' ->
  wakeup_reason_pm_event PM_SUSPEND_PREPARE now s =
    {| irq_list := irq_list s; irqcount := 0; suspend_abort := false;
       abort_reason := abort_reason s;
       wakeup_ready_timeout := wakeup_ready_timeout s;
       wakeup_ready_wait := wakeup_ready_wait s;
       wakeup_ready_nowait := wakeup_ready_nowait s;
       last_xtime := now_xtime now; curr_xtime := curr_xtime s;
       last_stime := now_sleep now; curr_stime := curr_stime s;
       suspend_count := suspend_count s; abort_count := abort_count s;
       total_xtime := total_xtime s; total_stime := total_stime s;
       total_atime := total_atime s; base_irq_nodes := base_irq_nodes s;
       cur_irq_tree := cur_irq_tree s;
       cur_irq_tree_depth := cur_irq_tree_depth s;
       node_count := node_count s; wakeup_irqs := wakeup_irqs s;
       log_wakeups := log_wakeups s; klog := klog s |}
  /\ recorded_irqs (wakeup_reason_pm_event PM_SUSPEND_PREPARE now s) = []
  /\ wakeup_reason_pm_event PM_POST_SUSPEND now s =
    {| irq_list := irq_list s; irqcount := irqcount s;
       suspend_abort := suspend_abort s; abort_reason := abort_reason s;
       wakeup_ready_timeout := wakeup_ready_timeout s;
       wakeup_ready_wait := wakeup_ready_wait s;
       wakeup_ready_nowait := wakeup_ready_nowait s;
       last_xtime := last_xtime s; curr_xtime := now_xtime now;
       last_stime := last_stime s; curr_stime := now_sleep now;
       suspend_count := suspend_count s; abort_count := abort_count s;
       total_xtime := total_xtime s; total_stime := total_stime s;
       total_atime := total_atime s; base_irq_nodes := base_irq_nodes s;
       cur_irq_tree := cur_irq_tree s;
       cur_irq_tree_depth := cur_irq_tree_depth s;
       node_count := node_count s; wakeup_irqs := wakeup_irqs s;
       log_wakeups := log_wakeups s; klog := klog s |}
  /\ suspend_count s' = suspend_count s
  /\ abort_count s' = abort_count s
  /\ wakeup_ready_wait s <= wakeup_ready_wait s'
  /\ (wakeup_ready_timeout s' = wakeup_ready_timeout s
      \/ wakeup_ready_timeout s' = to_ulong (wakeup_ready_timeout s + 1))
  /\ (wakeup_ready_nowait s' = wakeup_ready_nowait s
      \/ wakeup_ready_nowait s' = to_ulong (wakeup_ready_nowait s + 1))
  /\ (0 <= wakeup_ready_timeout s < ULONG_MAX ->
      wakeup_ready_timeout s <= wakeup_ready_timeout s')
  /\ (0 <= wakeup_ready_nowait s < ULONG_MAX ->
      wakeup_ready_nowait s <= wakeup_ready_nowait s').
Proof.
  intros Hstep.
  destruct (step_counters o s s' Hstep)
    as (Hsuspend & Habort & Hwait & Htimeout & Hnowait).
  split; [done|]. split; [done|]. split; [done|].
  repeat split; try done.
  - intros Hroom. destruct Htimeout as [->| ->]; [lia|].
    rewrite to_ulong_succ; [lia|done].
  - intros Hroom. destruct Hnowait as [->| ->]; [lia|].
    rewrite to_ulong_succ; [lia|done].
Qed.

(** ** Durations *)

Lemma timespec_sub_ns (a b : timespec) :
  timespec_sub a b =
    Timespec ((timespec_to_ns a - timespec_to_ns b) / NSEC_PER_SEC)
             ((timespec_to_ns a - timespec_to_ns b) mod NSEC_PER_SEC).
Proof.
  unfold timespec_sub, set_normalized_timespec, timespec_to_ns.
  replace (tv_sec a * NSEC_PER_SEC + tv_nsec a - (tv_sec b * NSEC_PER_SEC + tv_nsec b))
    with ((tv_sec a - tv_sec b) * NSEC_PER_SEC + (tv_nsec a - tv_nsec b)) by lia.
  rewrite Z.div_add_l by done. f_equal.
  rewrite Z.add_comm. by rewrite Z_mod_plus_full.
Qed.

Lemma timespec_sub_to_ns (a b : timespec) :
  timespec_to_ns (timespec_sub a b) = timespec_to_ns a - timespec_to_ns b.
Proof.
  rewrite timespec_sub_ns. unfold timespec_to_ns at 1. simpl.
  pose proof (Z.div_mod (timespec_to_ns a - timespec_to_ns b) NSEC_PER_SEC).
  unfold NSEC_PER_SEC in *. lia.
Qed.

Lemma timespec_sub_sign (a b : timespec) :
  negative (timespec_sub a b) <-> timespec_to_ns a < timespec_to_ns b.
Proof.
  rewrite timespec_sub_ns. unfold negative. simpl.
  pose proof (Z.div_mod (timespec_to_ns a - timespec_to_ns b) NSEC_PER_SEC).
  pose proof (Z.mod_pos_bound (timespec_to_ns a - timespec_to_ns b) NSEC_PER_SEC).
  unfold NSEC_PER_SEC in *. lia.
Qed.

(** When the wall clock and the sleep counter advance by the same amount
    between the two events, all of the elapsed time is sleep. *)
Lemma all_asleep (s : wr_state) :
  timespec_to_ns (curr_xtime s) - timespec_to_ns (last_xtime s)
  = timespec_to_ns (curr_stime s) - timespec_to_ns (last_stime s) ->
  sleep_time s = total_time s /\ suspend_resume_time s = timespec_zero.
Proof.
  intros Hsame.
  assert (Heq : sleep_time s = total_time s).
  { unfold sleep_time, total_time. rewrite !timespec_sub_ns. by rewrite Hsame. }
  split; [done|]. unfold suspend_resume_time. rewrite Heq, timespec_sub_ns.
  by rewrite Z.sub_diag.
Qed.

Lemma fmt_timespec_zero : fmt_timespec timespec_zero = "0.000000000".
Proof.
  unfold fmt_timespec, fmt_09lu, fmt_lu, to_ulong. simpl.
  by rewrite Zmod_0_l.
Qed.

(** C9, as the code has it.  The sleep time and the total time are not
    negative when the stamp taken after the suspend is not earlier than
    the one taken before it, and the suspend-and-resume time is not
    negative when the sleep counter advanced by no more than the wall
    clock.  [last_suspend_time_show] checks none of this and reports no
    error: it always prints the two durations, and the seconds of a
    negative duration come out as the unsigned long they wrap to. *)
Theorem durations_sign_and_report (s : wr_state) :
  (timespec_to_ns (last_stime s) <= timespec_to_ns (curr_stime s) ->
   ~ negative (sleep_time s))
  /\ (timespec_to_ns (last_xtime s) <= timespec_to_ns (curr_xtime s) ->
      ~ negative (total_time s))
  /\ (timespec_to_ns (curr_stime s) - timespec_to_ns (last_stime s)
      <= timespec_to_ns (curr_xtime s) - timespec_to_ns (last_xtime s) ->
      ~ negative (suspend_resume_time s))
  /\ ~ reports_error (last_suspend_time_show s)
  /\ last_suspend_time_show s =
       shown (fmt_timespec (suspend_resume_time s) +:+ " " +:+
              fmt_timespec (sleep_time s) +:+ nl)
  /\ (negative (suspend_resume_time s) ->
      - 2 ^ BITS_PER_LONG <= tv_sec (suspend_resume_time s) ->
      fmt_lu (tv_sec (suspend_resume_time s))
      = pretty (tv_sec (suspend_resume_time s) + 2 ^ BITS_PER_LONG)).
Proof.
  repeat split.
  - intros Horder. unfold sleep_time. rewrite timespec_sub_sign. lia.
  - intros Horder. unfold total_time. rewrite timespec_sub_sign. lia.
  - intros Horder. unfold suspend_resume_time. rewrite timespec_sub_sign.
    unfold total_time, sleep_time. rewrite !timespec_sub_to_ns. lia.
  - unfold reports_error, last_suspend_time_show, shown. simpl. lia.
  - intros Hneg Hfits. unfold fmt_lu, to_ulong, negative in *. f_equal.
    symmetry. apply (Z.mod_unique _ _ (-1)); lia.
Qed.

(** ** The shape of the forest *)

Lemma handles_IrqNode (n : node_info) (child siblings : irq_tree) :
  handles (IrqNode n child siblings)
  = node_id n :: handles child ++ handles siblings.
Proof. unfold handles. rewrite nodes_IrqNode. simpl. by rewrite fmap_app. Qed.

Lemma NoDup_handles_IrqNode (n : node_info) (child siblings : irq_tree) :
  NoDup (handles (IrqNode n child siblings)) ->
  (node_id n ∉ handles child) /\ (node_id n ∉ handles siblings)
  /\ NoDup (handles child) /\ NoDup (handles siblings)
  /\ (forall h, h ∈ handles child -> h ∉ handles siblings).
Proof.
  rewrite handles_IrqNode, NoDup_cons, NoDup_app, not_elem_of_app.
  intros ([Hc Hs] & Hdc & Hdisjoint & Hds). by repeat split.
Qed.

Lemma entries_append_sibling (new t : irq_tree) :
  entries (append_sibling new t) = entries t ++ entries new.
Proof.
  induction t as [|n child _ siblings IH]; simpl; [done|].
  by rewrite IH, app_assoc.
Qed.

Lemma nodes_append_sibling (new t : irq_tree) :
  nodes (append_sibling new t) = nodes t ++ nodes new.
Proof. unfold nodes. by rewrite entries_append_sibling, fmap_app. Qed.

Lemma find_node_None (h : nat) (t : irq_tree) :
  h ∉ handles t -> find_node h t = None.
Proof.
  induction t as [|n child IHc siblings IHs]; [done|].
  rewrite handles_IrqNode, not_elem_of_cons, not_elem_of_app.
  intros (Hn & Hc & Hs). simpl.
  destruct (Nat.eqb_spec (node_id n) h) as [|_]; [done|].
  by rewrite IHc, IHs.
Qed.

Lemma find_node_entry (n : node_info) (child t : irq_tree) :
  NoDup (handles t) -> (n, child) ∈ entries t ->
  find_node (node_id n) t = Some (n, child).
Proof.
  induction t as [|m c IHc siblings IHs]; intros Hdup Hin; simpl in *.
  { by apply elem_of_nil in Hin. }
  apply NoDup_handles_IrqNode in Hdup as (Hmc & Hms & Hc & Hs & Hcs).
  assert (Hhandle : forall t', (n, child) ∈ entries t' -> node_id n ∈ handles t').
  { intros t' Hin'. unfold handles, nodes. rewrite <- list_fmap_compose.
    apply (list_elem_of_fmap_2 (node_id ∘ fst) _ _ Hin'). }
  apply elem_of_cons in Hin as [Hhead|Hin].
  - inversion Hhead; subst. by rewrite Nat.eqb_refl.
  - apply elem_of_app in Hin as [Hin|Hin].
    + destruct (Nat.eqb_spec (node_id m) (node_id n)) as [Heq|_].
      { destruct Hmc. rewrite Heq. by apply Hhandle. }
      by rewrite IHc.
    + destruct (Nat.eqb_spec (node_id m) (node_id n)) as [Heq|_].
      { destruct Hms. rewrite Heq. by apply Hhandle. }
      rewrite find_node_None, IHs; try done.
      intros Hc'. by apply (Hcs _ Hc'), Hhandle.
Qed.

Lemma find_node_Some (h : nat) (n : node_info) (child t : irq_tree) :
  find_node h t = Some (n, child) -> (n, child) ∈ entries t /\ node_id n = h.
Proof.
  induction t as [|m c IHc siblings IHs]; simpl; [done|].
  destruct (Nat.eqb_spec (node_id m) h) as [Heq|_].
  - intros Hfound. inversion Hfound; subst. split; [|done]. apply elem_of_cons. by left.
  - destruct (find_node h c) as [e|].
    + intros Hfound. inversion Hfound; subst.
      destruct (IHc eq_refl) as [Hin Hid]. split; [|done].
      apply elem_of_cons. right. apply elem_of_app. by left.
    + intros Hfound. destruct (IHs Hfound) as [Hin Hid]. split; [|done].
      apply elem_of_cons. right. apply elem_of_app. by right.
Qed.

(** Looking the handles up one after the other gives the nodes in
    insertion order. *)
Lemma find_all_entries (t : irq_tree) :
  NoDup (handles t) ->
  omap (fun h => find_node h t) (handles t) = entries t.
Proof.
  intros Hdup.
  assert (Hsub : forall l, l ⊆ entries t ->
    omap (fun h => find_node h t) (node_id <$> l.*1) = l).
  { induction l as [|[n child] l IH]; intros Hl; [done|]. csimpl.
    rewrite (find_node_entry n child t Hdup) by (apply Hl; left).
    rewrite IH; [done|]. intros e He. apply Hl. by right. }
  by apply Hsub.
Qed.

Lemma nodes_mark_handled (h : nat) (t : irq_tree) :
  nodes (mark_handled h t)
  = (fun n => if Nat.eqb (node_id n) h then set_handled n else n) <$> nodes t.
Proof.
  induction t as [|n child IHc siblings IHs]; [done|].
  simpl mark_handled. rewrite !nodes_IrqNode, IHc, IHs. simpl.
  by rewrite fmap_app.
Qed.

Lemma handles_mark_handled (h : nat) (t : irq_tree) :
  handles (mark_handled h t) = handles t.
Proof.
  unfold handles. rewrite nodes_mark_handled, <- list_fmap_compose.
  apply list_fmap_ext. intros _ n _. simpl. by destruct (Nat.eqb (node_id n) h).
Qed.

Lemma is_NoNode_mark_handled (h : nat) (t : irq_tree) :
  is_NoNode (mark_handled h t) = is_NoNode t.
Proof. by destruct t. Qed.

Lemma on_spine_mark_handled (c h : nat) (t : irq_tree) :
  on_spine c t -> on_spine c (mark_handled h t).
Proof.
  induction t as [|n child IHc siblings IHs]; [done|]. simpl.
  rewrite is_NoNode_mark_handled.
  destruct (is_NoNode siblings); [|done].
  intros [Hhere|Hdown]; [left|right; by apply IHc].
  by destruct (Nat.eqb (node_id n) h).
Qed.

Lemma well_parented_mark_handled (par : option nat) (h : nat) (t : irq_tree) :
  well_parented par t -> well_parented par (mark_handled h t).
Proof.
  revert par; induction t as [|n child IHc siblings IHs]; intros par; [done|].
  simpl. intros (Hpar & Hc & Hs). split; [|split].
  - by destruct (Nat.eqb (node_id n) h).
  - replace (node_id (if Nat.eqb (node_id n) h then set_handled n else n))
      with (node_id n) by (by destruct (Nat.eqb (node_id n) h)).
    by apply IHc.
  - by apply IHs.
Qed.

Lemma on_spine_handle (c : nat) (t : irq_tree) :
  on_spine c t -> c ∈ handles t.
Proof.
  induction t as [|n child IHc siblings IHs]; [done|].
  rewrite handles_IrqNode. simpl. destruct (is_NoNode siblings).
  - intros [<-|Hdown]; [left|]. right. apply elem_of_app. left. by apply IHc.
  - intros Hspine. right. apply elem_of_app. right. by apply IHs.
Qed.

Lemma on_spine_append_sibling (n : node_info) (t : irq_tree) :
  on_spine (node_id n) (append_sibling (IrqNode n NoNode NoNode) t).
Proof.
  induction t as [|m child _ siblings IH]; simpl; [by left|].
  by destruct siblings.
Qed.

Lemma well_parented_append_sibling (par : option nat) (n : node_info)
    (t : irq_tree) :
  well_parented par t -> parent n = par ->
  well_parented par (append_sibling (IrqNode n NoNode NoNode) t).
Proof.
  intros Ht Hn. induction t as [|m child _ siblings IH]; simpl in *; [done|].
  destruct Ht as (? & ? & ?). auto.
Qed.

Lemma add_child_absent (p : nat) (new t : irq_tree) :
  p ∉ handles t -> add_child p new t = t.
Proof.
  induction t as [|n child IHc siblings IHs]; [done|].
  rewrite handles_IrqNode, not_elem_of_cons, not_elem_of_app.
  intros (Hn & Hc & Hs). simpl.
  destruct (Nat.eqb_spec (node_id n) p) as [|_]; [done|].
  by rewrite IHc, IHs.
Qed.

Lemma is_NoNode_add_child (p : nat) (new t : irq_tree) :
  is_NoNode (add_child p new t) = is_NoNode t.
Proof. destruct t; [done|]. simpl. by destruct (Nat.eqb (node_id n) p). Qed.

(** A child added to a node of the spine is the last node in insertion
    order, and the end of the new spine. *)
Lemma add_child_on_spine (c : nat) (n : node_info) (t : irq_tree) :
  NoDup (handles t) -> on_spine c t ->
  nodes (add_child c (IrqNode n NoNode NoNode) t) = nodes t ++ [n]
  /\ on_spine (node_id n) (add_child c (IrqNode n NoNode NoNode) t).
Proof.
  induction t as [|m child IHc siblings IHs]; intros Hdup Hspine; [done|].
  apply NoDup_handles_IrqNode in Hdup as (Hmc & Hms & Hc & Hs & Hcs).
  simpl in Hspine. simpl add_child.
  destruct (is_NoNode siblings) eqn:Hlast.
  - destruct siblings; [|done].
    destruct (Nat.eqb_spec (node_id m) c) as [Heq|Hne].
    + split.
      * rewrite !nodes_IrqNode, nodes_append_sibling, nodes_IrqNode.
        simpl. by rewrite !app_nil_r.
      * simpl. right. apply on_spine_append_sibling.
    + destruct Hspine as [|Hdown]; [done|].
      destruct (IHc Hc Hdown) as [Hnodes Hend]. split.
      * rewrite !nodes_IrqNode, Hnodes. simpl. by rewrite !app_nil_r.
      * simpl. by right.
  - pose proof (on_spine_handle c siblings Hspine) as Hin.
    destruct (Nat.eqb_spec (node_id m) c) as [Heq|Hne].
    { by subst. }
    rewrite (add_child_absent c _ child) by (intros Hc'; by apply (Hcs _ Hc')).
    destruct (IHs Hs Hspine) as [Hnodes Hend]. split.
    + rewrite !nodes_IrqNode, Hnodes. by rewrite !app_assoc.
    + simpl. by rewrite is_NoNode_add_child, Hlast.
Qed.

Lemma well_parented_add_child (par : option nat) (c : nat) (n : node_info)
    (t : irq_tree) :
  well_parented par t -> parent n = Some c ->
  well_parented par (add_child c (IrqNode n NoNode NoNode) t).
Proof.
  intros Ht Hn. revert par Ht.
  induction t as [|m child IHc siblings IHs]; intros par Ht; [done|].
  simpl in *. destruct Ht as (Hm & Hchild & Hsiblings).
  destruct (Nat.eqb_spec (node_id m) c) as [Heq|Hne]; simpl.
  - split; [done|]. split; [|done].
    apply well_parented_append_sibling; [done|]. by rewrite Heq.
  - auto.
Qed.

(** The node above a node of the spine is on the spine too. *)
Lemma on_spine_parent (par : option nat) (h : nat) (n : node_info)
    (child t : irq_tree) :
  well_parented par t -> NoDup (handles t) -> on_spine h t ->
  find_node h t = Some (n, child) ->
  parent n = par \/ exists p, parent n = Some p /\ on_spine p t.
Proof.
  revert par; induction t as [|m c IHc siblings IHs];
    intros par Hwp Hdup Hspine Hfind; [done|].
  apply NoDup_handles_IrqNode in Hdup as (Hmc & Hms & Hc & Hs & Hcs).
  destruct Hwp as (Hm & Hwc & Hws). simpl in Hspine, Hfind.
  destruct (is_NoNode siblings) eqn:Hlast.
  - destruct (Nat.eqb_spec (node_id m) h) as [Heq|Hne].
    + inversion Hfind; subst. by left.
    + destruct Hspine as [|Hdown]; [done|].
      assert (Hin : find_node h c = Some (n, child)).
      { destruct (find_node h c) as [e|] eqn:Hfc; [done|].
        destruct siblings; [done|done]. }
      right. destruct (IHc _ Hwc Hc Hdown Hin) as [Hup|(p & Hp & Hon)].
      * exists (node_id m). split; [done|]. simpl. rewrite Hlast. by left.
      * exists p. split; [done|]. simpl. rewrite Hlast. by right.
  - pose proof (on_spine_handle h siblings Hspine) as Hin.
    destruct (Nat.eqb_spec (node_id m) h) as [Heq|Hne].
    { by subst. }
    rewrite find_node_None in Hfind by (intros Hc'; by apply (Hcs _ Hc')).
    destruct (IHs _ Hws Hs Hspine Hfind) as [Hup|(p & Hp & Hon)]; [by left|].
    right. exists p. split; [done|]. simpl. by rewrite Hlast.
Qed.

(** ** Bracketed deliveries *)

Arguments nodes : simpl never.
Arguments handles : simpl never.
Arguments all_handled : simpl never.

Lemma forest_ok_NoDup (s : wr_state) :
  forest_ok s -> NoDup (handles (base_irq_nodes s)).
Proof. intros (-> & _). apply NoDup_seq. Qed.

Lemma forest_ok_printk (m : kmsg) (s : wr_state) :
  forest_ok s -> forest_ok (printk m s).
Proof. done. Qed.

(** Below the cap, [begin_node] puts a new unhandled node behind the
    nodes inserted before it and moves the cursor to it. *)
Lemma begin_node_began (i : Z) (s : wr_state) :
  forest_ok s ->
  Z.of_nat (cur_irq_tree_depth s) < MAX_WAKEUP_REASON_IRQS ->
  exists s1, begin_node i s = (Began (node_count s), s1)
  /\ forest_ok s1
  /\ cur_irq_tree s1 = Some (node_count s)
  /\ cur_irq_tree_depth s1 = S (cur_irq_tree_depth s)
  /\ nodes (base_irq_nodes s1)
     = nodes (base_irq_nodes s)
       ++ [NodeInfo (node_count s) i false (cur_irq_tree s)].
Proof.
  intros Hok Hroom. pose proof (forest_ok_NoDup s Hok) as Hdup.
  destruct Hok as (Hhandles & Hwp & Hspine & Hlog).
  unfold begin_node.
  destruct (Z.ltb_spec (Z.of_nat (cur_irq_tree_depth s)) MAX_WAKEUP_REASON_IRQS)
    as [_|]; [|lia].
  eexists. split; [reflexivity|]. unfold forest_ok. simpl.
  set (n := NodeInfo (node_count s) i false (cur_irq_tree s)).
  assert (Hnew :
    nodes (match cur_irq_tree s with
           | Some c => add_child c (IrqNode n NoNode NoNode) (base_irq_nodes s)
           | None => append_sibling (IrqNode n NoNode NoNode) (base_irq_nodes s)
           end) = nodes (base_irq_nodes s) ++ [n]
    /\ on_spine (node_id n)
         (match cur_irq_tree s with
          | Some c => add_child c (IrqNode n NoNode NoNode) (base_irq_nodes s)
          | None => append_sibling (IrqNode n NoNode NoNode) (base_irq_nodes s)
          end)
    /\ well_parented None
         (match cur_irq_tree s with
          | Some c => add_child c (IrqNode n NoNode NoNode) (base_irq_nodes s)
          | None => append_sibling (IrqNode n NoNode NoNode) (base_irq_nodes s)
          end)).
  { destruct (cur_irq_tree s) as [c|] eqn:Hcur.
    - destruct (add_child_on_spine c n _ Hdup (Hspine c eq_refl)) as [Hnodes Hend].
      repeat split; try done. by apply well_parented_add_child.
    - repeat split.
      + by rewrite nodes_append_sibling.
      + apply on_spine_append_sibling.
      + by apply well_parented_append_sibling. }
  destruct Hnew as (Hnodes & Hend & Hwp').
  repeat split; try done.
  - unfold handles. rewrite Hnodes, fmap_app. fold (handles (base_irq_nodes s)).
    rewrite Hhandles. symmetry. apply (seq_S (node_count s) 0).
  - intros c Hc. inversion Hc; subst. exact Hend.
  - unfold all_handled. rewrite Hnodes, forallb_app. simpl.
    by rewrite andb_false_r.
Qed.

Lemma begin_node_dropped (i : Z) (s : wr_state) :
  ~ Z.of_nat (cur_irq_tree_depth s) < MAX_WAKEUP_REASON_IRQS ->
  begin_node i s = (CapacityExceeded, printk (Wakeup_irq_dropped i) s).
Proof.
  intros Hfull. unfold begin_node.
  by destruct (Z.ltb_spec (Z.of_nat (cur_irq_tree_depth s)) MAX_WAKEUP_REASON_IRQS).
Qed.

Lemma mark_only (h : nat) (l : list node_info) :
  h ∉ node_id <$> l ->
  (fun n => if Nat.eqb (node_id n) h then set_handled n else n) <$> l = l.
Proof.
  induction l as [|n l IH]; [done|].
  rewrite !fmap_cons, not_elem_of_cons. intros [Hn Hl]. rewrite (IH Hl).
  by destruct (Nat.eqb_spec (node_id n) h).
Qed.

(** [end_node] on the cursor marks that node and moves the cursor up. *)
Lemma end_node_cursor (h : nat) (n : node_info) (pre post : list node_info)
    (s : wr_state) :
  forest_ok s -> cur_irq_tree s = Some h ->
  nodes (base_irq_nodes s) = pre ++ n :: post ->
  node_id n = h -> handled n = false ->
  forest_ok (end_node h s)
  /\ cur_irq_tree (end_node h s) = parent n
  /\ cur_irq_tree_depth (end_node h s) = Nat.pred (cur_irq_tree_depth s)
  /\ node_count (end_node h s) = node_count s
  /\ nodes (base_irq_nodes (end_node h s)) = pre ++ set_handled n :: post.
Proof.
  intros Hok Hcur Hnodes Hid Hopen. pose proof (forest_ok_NoDup s Hok) as Hdup.
  destruct Hok as (Hhandles & Hwp & Hspine & Hlog).
  assert (Hin : n ∈ nodes (base_irq_nodes s)).
  { rewrite Hnodes. apply elem_of_app. right. by left. }
  apply list_elem_of_fmap in Hin as ([n' child] & Hn & Hentry).
  simpl in Hn. subst n'.
  pose proof (find_node_entry n child _ Hdup Hentry) as Hfind.
  rewrite Hid in Hfind.
  assert (Hmarked : nodes (mark_handled h (base_irq_nodes s))
                    = pre ++ set_handled n :: post).
  { rewrite nodes_mark_handled, Hnodes, fmap_app, fmap_cons.
    unfold handles in Hdup. rewrite Hnodes, fmap_app, fmap_cons in Hdup.
    apply NoDup_app in Hdup as (_ & Hpre & Hpost).
    apply NoDup_cons in Hpost as [Hpost _].
    rewrite Hid, Nat.eqb_refl, !mark_only; try done.
    - by rewrite <- Hid.
    - intros Hh. apply (Hpre _ Hh). rewrite Hid. by left. }
  assert (Hup : forall c, parent n = Some c ->
                on_spine c (mark_handled h (base_irq_nodes s))).
  { intros c Hc. apply on_spine_mark_handled.
    destruct (on_spine_parent None h n child _ Hwp Hdup (Hspine h Hcur) Hfind)
      as [Hroot|(p & Hp & Hon)]; [congruence|].
    rewrite Hc in Hp. by inversion Hp; subst. }
  assert (Hbusy : all_handled (base_irq_nodes s) = false).
  { unfold all_handled. rewrite Hnodes, forallb_app. simpl.
    by rewrite Hopen, andb_false_r. }
  unfold end_node. rewrite Hfind, Hopen. simpl.
  rewrite (bool_decide_eq_true_2 _ Hcur).
  destruct (all_handled (mark_handled h (base_irq_nodes s))) eqn:Hall; simpl;
    (split; [|by repeat split]); unfold forest_ok; simpl;
    rewrite handles_mark_handled, Hall;
    repeat split; try done; try (by apply well_parented_mark_handled).
  by rewrite Hlog, Hbusy.
Qed.

(** A bracketed sequence of deliveries leaves the cursor where it was and
    adds its nodes, all of them handled, behind the ones that were
    there. *)
Lemma deliver_forest (ds : deliveries) (s : wr_state) :
  forest_ok s ->
  forest_ok (deliver ds s)
  /\ cur_irq_tree (deliver ds s) = cur_irq_tree s
  /\ cur_irq_tree_depth (deliver ds s) = cur_irq_tree_depth s
  /\ exists added,
       nodes (base_irq_nodes (deliver ds s)) = nodes (base_irq_nodes s) ++ added
       /\ forallb handled added = true.
Proof.
  revert s; induction ds as [|i nested IHn rest IHr]; intros s Hok; simpl.
  { split; [done|]. split; [done|]. split; [done|].
    exists []. by rewrite app_nil_r. }
  destruct (Z.lt_decidable (Z.of_nat (cur_irq_tree_depth s)) MAX_WAKEUP_REASON_IRQS)
    as [Hroom|Hfull].
  - destruct (begin_node_began i s Hok Hroom)
      as (s1 & -> & Hok1 & Hcur1 & Hdepth1 & Hnodes1).
    destruct (IHn s1 Hok1) as (Hok2 & Hcur2 & Hdepth2 & added2 & Hnodes2 & Hall2).
    rewrite Hnodes1, <- app_assoc in Hnodes2. simpl in Hnodes2.
    rewrite Hcur1 in Hcur2.
    destruct (end_node_cursor _ _ _ _ _ Hok2 Hcur2 Hnodes2 eq_refl eq_refl)
      as (Hok3 & Hcur3 & Hdepth3 & _ & Hnodes3).
    destruct (IHr _ Hok3) as (Hok4 & Hcur4 & Hdepth4 & added4 & Hnodes4 & Hall4).
    split; [done|]. split; [by rewrite Hcur4, Hcur3|].
    split; [by rewrite Hdepth4, Hdepth3, Hdepth2, Hdepth1|].
    eexists. rewrite Hnodes4, Hnodes3. split.
    + rewrite <- app_assoc. reflexivity.
    + simpl. by rewrite forallb_app, Hall2, Hall4.
  - rewrite (begin_node_dropped i s Hfull).
    destruct (IHn _ (forest_ok_printk (Wakeup_irq_dropped i) s Hok))
      as (Hok2 & Hcur2 & Hdepth2 & added2 & Hnodes2 & Hall2).
    destruct (IHr _ Hok2) as (Hok4 & Hcur4 & Hdepth4 & added4 & Hnodes4 & Hall4).
    split; [done|]. split; [by rewrite Hcur4, Hcur2|].
    split; [by rewrite Hdepth4, Hdepth2|].
    exists (added2 ++ added4). rewrite Hnodes4, Hnodes2. split.
    + by rewrite <- app_assoc.
    + by rewrite forallb_app, Hall2, Hall4.
Qed.

Lemma forest_empty_ok (s : wr_state) : forest_empty s -> forest_ok s.
Proof.
  intros (Hbase & Hcur & Hcount & Hlog). unfold forest_ok.
  rewrite Hbase, Hcur, Hcount, Hlog. by repeat split.
Qed.

(** The walk meets the leaves from the one inserted last to the one
    inserted first. *)
Lemma leaf_nodes_entries (t : irq_tree) :
  leaf_nodes t = rev (List.filter (fun e => is_NoNode e.2) (entries t)).*1.
Proof.
  unfold leaf_nodes. rewrite visited_entries.
  induction (entries t) as [|e l IH]; [done|]. simpl.
  rewrite List.filter_app, fmap_app, IH. simpl.
  by destruct (is_NoNode e.2); simpl; rewrite ?app_nil_r.
Qed.

(** In a forest whose handles are in allocation order, the leaves in
    insertion order are the leaves in the order of the walk, read from the
    last one met. *)
Lemma leaves_in_order (s : wr_state) :
  forest_ok s ->
  in_insertion_order s = entries (base_irq_nodes s)
  /\ leaves_in_insertion_order s = rev (leaf_nodes (base_irq_nodes s)).
Proof.
  intros Hok. pose proof (forest_ok_NoDup s Hok) as Hdup.
  assert (Horder : in_insertion_order s = entries (base_irq_nodes s)).
  { unfold in_insertion_order. destruct Hok as (<- & _).
    by apply find_all_entries. }
  split; [done|]. unfold leaves_in_insertion_order.
  by rewrite Horder, leaf_nodes_entries, rev_involutive.
Qed.

Lemma NoDup_leaf_entries (t : irq_tree) :
  NoDup (handles t)
  -> NoDup (node_id <$> (List.filter (fun e => is_NoNode e.2) (entries t)).*1).
Proof.
  unfold handles, nodes.
  induction (entries t) as [|e l IH]; [constructor|].
  rewrite !fmap_cons, NoDup_cons. intros [He Hl]. simpl.
  destruct (is_NoNode e.2); [|by apply IH].
  rewrite !fmap_cons, NoDup_cons. split; [|by apply IH].
  intros Hin. apply He.
  apply list_elem_of_fmap in Hin as (n & -> & Hin).
  apply list_elem_of_fmap in Hin as (e' & -> & Hin).
  apply list_elem_of_In, filter_In in Hin as [Hin _].
  apply list_elem_of_fmap. exists e'.1. split; [done|].
  apply list_elem_of_fmap. exists e'. split; [done|]. by apply list_elem_of_In.
Qed.

(** C1.  After any bracketed sequence of deliveries into an empty forest,
    [get_wakeup_reasons_nosync] returns exactly the nodes that have no
    children, each once, in insertion order (by handle, from the first
    allocated), and stores that list in [wakeup_irqs]: the walk meets
    the nodes from the one inserted last to the one inserted first and
    [build_leaf_nodes] links every leaf in front of the ones met before
    it.  The order of the walk is the modelled one. *)
Theorem collect_leaves_after_deliveries (ds : deliveries) (s : wr_state) :
  forest_empty s ->
  in_insertion_order (deliver ds s) = entries (base_irq_nodes (deliver ds s))
  /\ get_wakeup_reasons_nosync (deliver ds s) =
       Returns (leaves_in_insertion_order (deliver ds s))
         (set_wakeup_irqs (leaves_in_insertion_order (deliver ds s))
            (deliver ds s))
  /\ (forall n, n ∈ leaves_in_insertion_order (deliver ds s) <->
                (n, NoNode) ∈ entries (base_irq_nodes (deliver ds s)))
  /\ NoDup (node_id <$> leaves_in_insertion_order (deliver ds s)).
Proof.
  intros Hempty. pose proof (forest_empty_ok s Hempty) as Hok.
  destruct (deliver_forest ds s Hok) as (Hok' & _ & _ & added & Hnodes & Hall).
  destruct (leaves_in_order _ Hok') as [Horder Hleaves].
  destruct Hempty as (Hbase & _). rewrite Hbase in Hnodes. simpl in Hnodes.
  assert (Hquiet : logging_wakeup_reasons (deliver ds s) = false).
  { unfold logging_wakeup_reasons. destruct Hok' as (_ & _ & _ & ->).
    unfold all_handled. by rewrite Hnodes, Hall. }
  split; [done|]. split; [|split].
  - unfold get_wakeup_reasons_nosync. rewrite Hquiet, Hleaves.
    by rewrite walk_build_leaf_nodes, app_nil_r.
  - intros n. unfold leaves_in_insertion_order. rewrite Horder.
    rewrite list_elem_of_fmap.
    split.
    + intros ([n' child] & -> & Hin). apply list_elem_of_In, filter_In in Hin.
      destruct Hin as [Hin Hleaf]. simpl in *. destruct child; [|done].
      by apply list_elem_of_In.
    + intros Hin. exists (n, NoNode). split; [done|].
      apply list_elem_of_In, filter_In. split; [by apply list_elem_of_In|done].
  - unfold leaves_in_insertion_order. rewrite Horder.
    apply NoDup_leaf_entries, (forest_ok_NoDup _ Hok').
Qed.

(** [clear_wakeup_reasons] gives an empty forest back. *)
Lemma clear_wakeup_reasons_empties (s s' : wr_state) :
  forest_ok s -> clear_wakeup_reasons s = Returns tt s' -> forest_empty s'.
Proof.
  intros (Hhandles & _) Hclear.
  unfold clear_wakeup_reasons, clear_wakeup_reasons_nolock in Hclear.
  destruct (logging_wakeup_reasons s) eqn:Hlog; [done|].
  inversion Hclear; subst. unfold forest_empty. simpl.
  rewrite walk_delete_node. simpl.
  apply (f_equal length) in Hhandles. unfold handles in Hhandles.
  rewrite length_fmap, length_seq in Hhandles.
  repeat split; try done. lia.
Qed.


(** * Further properties of the flat log *)

Lemma recorded_irqs_length (s : wr_state) :
  flat_ok s -> length (recorded_irqs s) = Z.to_nat (irqcount s).
Proof.
  intros [[Hlo Hhi] Hlen]. unfold recorded_irqs, MAX_WAKEUP_REASON_IRQS in *.
  rewrite length_take. lia.
Qed.

Lemma take_take_app {A : Type} (n : nat) (a b : list A) :
  take n (take n a ++ b) = take n (a ++ b).
Proof.
  destruct (Nat.le_gt_cases (length a) n) as [Hle|Hgt].
  - by rewrite (take_ge a n Hle).
  - rewrite !take_app_le; [by rewrite take_take, Nat.min_id| lia |].
    rewrite length_take. lia.
Qed.

(** The slot check of [log_wakeup_reason], in one equation: the interrupt
    is recorded as long as fewer than 32 are. *)
Lemma log_wakeup_reason_recorded (i : Z) (s : wr_state) :
  flat_ok s ->
  recorded_irqs (log_wakeup_reason i s) = take 32 (recorded_irqs s ++ [i]).
Proof.
  intros Hok. pose proof (recorded_irqs_length s Hok) as Hlen.
  destruct (Z.eq_dec (irqcount s) MAX_WAKEUP_REASON_IRQS) as [Hfull|Hroom].
  - rewrite (log_wakeup_reason_full i s Hfull).
    change (recorded_irqs s = take 32 (recorded_irqs s ++ [i])).
    unfold MAX_WAKEUP_REASON_IRQS in Hfull.
    rewrite take_app_le by lia. rewrite take_ge; [done|lia].
  - destruct Hok as [[Hlo Hhi] Hlist]. unfold MAX_WAKEUP_REASON_IRQS in *.
    destruct (log_wakeup_reason_records i s) as [-> _].
    + by repeat split.
    + unfold MAX_WAKEUP_REASON_IRQS. lia.
    + rewrite take_ge; [done|]. rewrite length_app. simpl. lia.
Qed.

Lemma log_wakeup_reasons_recorded (l : list Z) (s : wr_state) :
  flat_ok s ->
  recorded_irqs (foldl (fun s i => log_wakeup_reason i s) s l)
  = take 32 (recorded_irqs s ++ l)
  /\ flat_ok (foldl (fun s i => log_wakeup_reason i s) s l).
Proof.
  revert s; induction l as [|i l IH]; intros s Hok; simpl.
  - split; [|done]. rewrite app_nil_r, take_ge; [done|].
    rewrite (recorded_irqs_length s Hok).
    destruct Hok as [[? ?] ?]. unfold MAX_WAKEUP_REASON_IRQS in *. lia.
  - destruct (IH _ (log_wakeup_reason_flat_ok i s Hok)) as [-> Hok'].
    split; [|done].
    rewrite (log_wakeup_reason_recorded i s Hok), take_take_app.
    by rewrite <- app_assoc.
Qed.

Lemma prepare_flat_ok (now : clock_reading) (s : wr_state) :
  flat_ok s -> flat_ok (wakeup_reason_pm_event PM_SUSPEND_PREPARE now s).
Proof.
  intros [_ Hlen]. split; [|done]. simpl. unfold MAX_WAKEUP_REASON_IRQS. lia.
Qed.

(** X1.  The interrupts logged in a cycle are recorded in the order of
    the calls, and only the first 32 of them: after [PM_SUSPEND_PREPARE]
    and the calls [log_wakeup_reason] for the interrupts of [l], the
    recorded interrupts are the first 32 elements of [l]. *)
Theorem log_wakeup_reasons_in_order (now : clock_reading) (l : list Z)
    (s : wr_state) :
  flat_ok s ->
  recorded_irqs
    (foldl (fun s i => log_wakeup_reason i s)
       (wakeup_reason_pm_event PM_SUSPEND_PREPARE now s) l)
  = take 32 l.
Proof.
  intros Hok.
  by destruct (log_wakeup_reasons_recorded l _ (prepare_flat_ok now s Hok)) as [-> _].
Qed.

Lemma run_producer_flat_ok (c : producer_call) (s : wr_state) :
  flat_ok s -> flat_ok (run_producer c s).
Proof.
  intros Hok. destruct c.
  - by apply log_wakeup_reason_flat_ok.
  - unfold run_producer, log_suspend_abort_reason. by destruct (suspend_abort s).
  - unfold run_producer, begin_node. by case_match.
  - unfold run_producer, end_node, stop_logging_wakeup_reasons.
    repeat case_match; done.
Qed.

Lemma run_producers_flat_ok (cs : list producer_call) (s : wr_state) :
  flat_ok s -> flat_ok (run_producers cs s).
Proof.
  revert s; induction cs as [|c cs IH]; intros s Hok; [done|].
  unfold run_producers in *. simpl. by apply IH, run_producer_flat_ok.
Qed.

(** X2.  No operation takes [irqcount] out of the range 0..32 or changes
    the size of [irq_list]: the store [irq_list[irqcount++]] never lands
    outside the array. *)
Theorem step_flat_ok (o : operation) (s s' : wr_state) :
  flat_ok s -> step o s = Some s' -> flat_ok s'.
Proof.
  intros Hok Hstep. destruct o; simpl in Hstep.
  - inversion Hstep; subst. by apply log_wakeup_reason_flat_ok.
  - by inversion Hstep; subst.
  - inversion Hstep; subst.
    by apply (run_producer_flat_ok (Call_log_suspend_abort_reason msg)).
  - inversion Hstep; subst. by apply (run_producer_flat_ok (Call_begin_node i)).
  - inversion Hstep; subst. by apply (run_producer_flat_ok (Call_end_node h)).
  - pose proof (run_producers_flat_ok (wait_during w) s Hok) as Hwoken.
    unfold get_wakeup_reasons, get_wakeup_reasons_nosync, logging_wakeup_reasons,
      stop_logging_wakeup_reasons, printk in Hstep.
    repeat case_match; simplify_eq; done.
  - unfold clear_wakeup_reasons, clear_wakeup_reasons_nolock in Hstep.
    destruct (logging_wakeup_reasons s); [done|]. by inversion Hstep; subst.
  - inversion Hstep; subst. destruct e; [by apply prepare_flat_ok|done|done].
  - by inversion Hstep; subst.
Qed.

(** X3.  [check_wakeup_reason] finds an interrupt after
    [log_wakeup_reason] exactly when it found it before or it is the
    interrupt just logged and there was a free slot for it. *)
Theorem check_after_log_wakeup_reason (i j : Z) (s : wr_state) :
  flat_ok s ->
  check_wakeup_reason j (log_wakeup_reason i s)
  = check_wakeup_reason j s
    || ((irqcount s <? MAX_WAKEUP_REASON_IRQS) && (j =? i)).
Proof.
  intros Hok. pose proof (recorded_irqs_length s Hok) as Hlen.
  unfold check_wakeup_reason. rewrite (log_wakeup_reason_recorded i s Hok).
  destruct Hok as [[Hlo Hhi] Hlist]. unfold MAX_WAKEUP_REASON_IRQS in *.
  destruct (Z.ltb_spec (irqcount s) 32) as [Hroom|Hfull].
  - rewrite take_ge by (rewrite length_app; simpl; lia).
    rewrite existsb_app. simpl. by rewrite orb_false_r.
  - rewrite take_app_le by lia. rewrite take_ge by lia.
    by rewrite orb_false_r.
Qed.

Lemma string_app_nil_r (a : string) : a +:+ "" = a.
Proof.
  induction a as [|c a IH]; [done|].
  change (String c (a +:+ "") = String c a). by rewrite IH.
Qed.

Lemma log_wakeup_reason_keeps_abort (i : Z) (s : wr_state) :
  suspend_abort (log_wakeup_reason i s) = suspend_abort s
  /\ abort_reason (log_wakeup_reason i s) = abort_reason s.
Proof. unfold log_wakeup_reason, printk. simpl. by case_match. Qed.

(** X5.  While no abort is logged, every recorded interrupt adds its own
    line at the end of the report and leaves the lines before it as they
    were; an interrupt dropped for lack of a slot adds nothing. *)
Theorem report_grows_by_one_line (i : Z) (s : wr_state) :
  flat_ok s -> suspend_abort s = false ->
  last_resume_reason_show (log_wakeup_reason i s)
  = shown ((last_resume_reason_show s).2 +:+
           (if irqcount s <? MAX_WAKEUP_REASON_IRQS
            then resume_reason_line i else "")).
Proof.
  intros Hok Hclear. pose proof (recorded_irqs_length s Hok) as Hlen.
  destruct (log_wakeup_reason_keeps_abort i s) as [Hflag _].
  unfold last_resume_reason_show. rewrite Hflag, Hclear.
  rewrite (log_wakeup_reason_recorded i s Hok). f_equal.
  destruct Hok as [[Hlo Hhi] Hlist]. unfold MAX_WAKEUP_REASON_IRQS in *.
  destruct (Z.ltb_spec (irqcount s) 32) as [Hroom|Hfull]; simpl.
  - rewrite take_ge by (rewrite length_app; simpl; lia).
    by rewrite foldl_app.
  - rewrite take_app_le by lia. rewrite take_ge by lia.
    by rewrite string_app_nil_r.
Qed.

Lemma string_app_assoc (a b c : string) : (a +:+ b) +:+ c = a +:+ (b +:+ c).
Proof.
  induction a as [|x a IH]; [done|].
  change (String x ((a +:+ b) +:+ c) = String x (a +:+ (b +:+ c))).
  by rewrite IH.
Qed.

Lemma report_lines (l : list Z) (buf : string) :
  foldl (fun buf i => buf +:+ resume_reason_line i) buf l
  = buf +:+ String.concat "" (resume_reason_line <$> l).
Proof.
  revert buf; induction l as [|i l IH]; intros buf.
  - simpl. by rewrite string_app_nil_r.
  - destruct l as [|k l].
    + simpl. done.
    + change (foldl (fun buf i => buf +:+ resume_reason_line i)
                (buf +:+ resume_reason_line i) (k :: l)
              = buf +:+ (resume_reason_line i +:+ ("" +:+
                  String.concat "" (resume_reason_line <$> k :: l)))).
      rewrite IH. by rewrite string_app_assoc.
Qed.

Lemma log_wakeup_reasons_keep_abort (l : list Z) (s : wr_state) :
  suspend_abort (foldl (fun s i => log_wakeup_reason i s) s l) = suspend_abort s.
Proof.
  revert s; induction l as [|i l IH]; intros s; [done|]. simpl.
  rewrite IH. apply log_wakeup_reason_keeps_abort.
Qed.

(** X4.  The report of a cycle without abort: after [PM_SUSPEND_PREPARE]
    and the calls [log_wakeup_reason] for the interrupts of [l],
    [last_resume_reason_show] writes one line for each of the first 32
    interrupts of [l], in the order of the calls, and nothing of what the
    cycle before had recorded or aborted with. *)
Theorem report_of_a_cycle (now : clock_reading) (l : list Z) (s : wr_state) :
  flat_ok s ->
  last_resume_reason_show
    (foldl (fun s i => log_wakeup_reason i s)
       (wakeup_reason_pm_event PM_SUSPEND_PREPARE now s) l)
  = shown (String.concat "" (resume_reason_line <$> take 32 l)).
Proof.
  intros Hok. unfold last_resume_reason_show.
  rewrite log_wakeup_reasons_keep_abort.
  destruct (log_wakeup_reasons_recorded l _ (prepare_flat_ok now s Hok)) as [-> _].
  change (shown (foldl (fun buf i => buf +:+ resume_reason_line i) "" (take 32 l))
          = shown (String.concat "" (resume_reason_line <$> take 32 l))).
  by rewrite report_lines.
Qed.

(** X6.  [check_wakeup_reason] in a cycle: after [PM_SUSPEND_PREPARE] and
    the calls [log_wakeup_reason] for the interrupts of [l], it finds
    exactly the first 32 interrupts of [l]; an interrupt recorded in the
    cycle before, or logged after the 32nd, is not found. *)
Theorem check_wakeup_reason_in_a_cycle (now : clock_reading) (l : list Z)
    (j : Z) (s : wr_state) :
  flat_ok s ->
  check_wakeup_reason j
    (foldl (fun s i => log_wakeup_reason i s)
       (wakeup_reason_pm_event PM_SUSPEND_PREPARE now s) l) = true
  <-> j ∈ take 32 l.
Proof.
  intros Hok. unfold check_wakeup_reason.
  destruct (log_wakeup_reasons_recorded l _ (prepare_flat_ok now s Hok)) as [-> _].
  change (recorded_irqs (wakeup_reason_pm_event PM_SUSPEND_PREPARE now s)) with (@nil Z).
  rewrite existsb_exists. simpl. split.
  - intros (x & Hin & Heq). apply Z.eqb_eq in Heq. subst. by apply list_elem_of_In.
  - intros Hin. exists j. split; [by apply list_elem_of_In|apply Z.eqb_refl].
Qed.

(** * Further properties of the tree *)

(** A walk with [match_node] goes on as long as no node has the
    interrupt. *)
Lemma walk_match_node (i : Z) (t : irq_tree) :
  walk_irq_node_tree t (match_node i) tt
  = (forallb (fun n => negb (irq n =? i)) (nodes t), tt).
Proof.
  induction t as [|n child IHc siblings IHs]; [done|].
  rewrite nodes_IrqNode. cbn [walk_irq_node_tree forallb].
  rewrite forallb_app, IHs.
  destruct (forallb (fun n => negb (irq n =? i)) (nodes siblings));
    [|by rewrite !andb_false_r].
  rewrite IHc, andb_true_r.
  destruct (forallb (fun n => negb (irq n =? i)) (nodes child));
    [|by rewrite andb_false_r].
  unfold match_node. by rewrite andb_true_r.
Qed.

Lemma some_node_matches (i : Z) (l : list node_info) :
  forallb (fun n => negb (irq n =? i)) l = false
  <-> exists n, n ∈ l /\ irq n = i.
Proof.
  induction l as [|m l IH]; simpl.
  - split; [done|]. intros (n & Hin & _). by apply elem_of_nil in Hin.
  - destruct (Z.eqb_spec (irq m) i) as [Heq|Hne]; simpl.
    + split; [|done]. intros _. exists m. split; [by left|done].
    + rewrite IH. split.
      * intros (n & Hin & Hn). exists n. split; [by right|done].
      * intros (n & Hin & Hn). apply elem_of_cons in Hin as [->|Hin]; [done|].
        by exists n.
Qed.

(** X7.  The second [check_wakeup_reason], the one over the tree, answers
    true exactly when some node of the forest, at any depth, has the
    interrupt. *)
Theorem check_wakeup_reason_nodes_spec (i : Z) (s : wr_state) :
  check_wakeup_reason_nodes i s = true
  <-> exists n, n ∈ nodes (base_irq_nodes s) /\ irq n = i.
Proof.
  unfold check_wakeup_reason_nodes. rewrite walk_match_node. simpl.
  by rewrite negb_true_iff, some_node_matches.
Qed.

(** X8.  With logging off, [clear_wakeup_reasons] frees every node of the
    forest and clears the abort flag, and leaves the flat log, the text
    of the abort reason, the counters and the time stamps as they were.
    After it the tree holds no interrupt and
    [get_wakeup_reasons_nosync] returns the empty list. *)
Theorem clear_wakeup_reasons_effect (s : wr_state) :
  logging_wakeup_reasons s = false ->
  exists s', clear_wakeup_reasons s = Returns tt s'
  /\ base_irq_nodes s' = NoNode /\ cur_irq_tree s' = None
  /\ cur_irq_tree_depth s' = O /\ wakeup_irqs s' = []
  /\ node_count s' = (node_count s - length (nodes (base_irq_nodes s)))%nat
  /\ suspend_abort s' = false
  /\ recorded_irqs s' = recorded_irqs s /\ abort_reason s' = abort_reason s
  /\ wakeup_ready_timeout s' = wakeup_ready_timeout s
  /\ wakeup_ready_wait s' = wakeup_ready_wait s
  /\ wakeup_ready_nowait s' = wakeup_ready_nowait s
  /\ last_suspend_time_show s' = last_suspend_time_show s
  /\ (forall i, check_wakeup_reason_nodes i s' = false)
  /\ get_wakeup_reasons_nosync s' = Returns [] s'.
Proof.
  intros Hoff. unfold clear_wakeup_reasons, clear_wakeup_reasons_nolock.
  rewrite Hoff. eexists. split; [reflexivity|].
  rewrite walk_delete_node. simpl.
  repeat split; try done.
  unfold get_wakeup_reasons_nosync, logging_wakeup_reasons in *. simpl.
  rewrite Hoff. by destruct s.
Qed.

(** X9.  A new cycle takes a new abort reason: after
    [PM_SUSPEND_PREPARE], or after a [clear_wakeup_reasons] that returns,
    [log_suspend_abort_reason] stores its reason and the report shows it,
    also when the cycle before had logged an abort of its own. *)
Theorem abort_again_in_next_cycle (now : clock_reading) (x : string)
    (s : wr_state) :
  (0 < MAX_SUSPEND_ABORT_LEN)%nat ->
  last_resume_reason_show
    (log_suspend_abort_reason x
       (wakeup_reason_pm_event PM_SUSPEND_PREPARE now s))
  = shown ("Abort: " +:+ String.substring 0 (MAX_SUSPEND_ABORT_LEN - 1) x)
  /\ forall s', clear_wakeup_reasons s = Returns tt s' ->
       last_resume_reason_show (log_suspend_abort_reason x s')
       = shown ("Abort: " +:+ String.substring 0 (MAX_SUSPEND_ABORT_LEN - 1) x).
Proof.
  intros Hsize. split.
  - by rewrite log_suspend_abort_reason_first.
  - intros s' Hclear. unfold clear_wakeup_reasons, clear_wakeup_reasons_nolock in Hclear.
    destruct (logging_wakeup_reasons s); [done|]. inversion Hclear; subst.
    by rewrite log_suspend_abort_reason_first.
Qed.

(** What [get_wakeup_reasons] does once it is past the wait with logging
    off: the leaves, and nothing unfinished. *)
Lemma nosync_path (s : wr_state) :
  logging_wakeup_reasons s = false ->
  match get_wakeup_reasons_nosync s with
  | BUG => BUG
  | Returns wakeups s' => Returns (WakeupReasons (Some wakeups) []) s'
  end
  = Returns (WakeupReasons (Some (rev (leaf_nodes (base_irq_nodes s)))) [])
      (set_wakeup_irqs (rev (leaf_nodes (base_irq_nodes s))) s).
Proof.
  intros Hoff. unfold get_wakeup_reasons_nosync. rewrite Hoff.
  by rewrite walk_build_leaf_nodes, app_nil_r.
Qed.

(** X10.  Whenever [get_wakeup_reasons] returns, logging is off, so a
    [clear_wakeup_reasons] that follows does not run into its
    [BUG_ON]. *)
Theorem logging_is_off_after_get_wakeup_reasons (timeout : Z)
    (w : wait_result) (s s' : wr_state) (r : wakeup_reasons) :
  get_wakeup_reasons timeout w s = Returns r s' ->
  logging_wakeup_reasons s' = false
  /\ exists s'', clear_wakeup_reasons s' = Returns tt s''.
Proof.
  intros Hrun.
  assert (Hoff : logging_wakeup_reasons s' = false).
  { unfold get_wakeup_reasons, get_wakeup_reasons_nosync, logging_wakeup_reasons,
      stop_logging_wakeup_reasons, printk in *.
    repeat case_match; simplify_eq; simpl in *; done. }
  split; [done|].
  unfold clear_wakeup_reasons, clear_wakeup_reasons_nolock. rewrite Hoff. eauto.
Qed.

(** X11.  A wait that is signalled: when the producers have switched
    logging off by then, [get_wakeup_reasons] returns the leaves of the
    forest as the producers left it, with [unfinished] empty, and
    [wakeup_ready_wait] becomes the larger of its old value and the time
    waited, [timeout - signalled]; the two other counters stay. *)
Theorem get_wakeup_reasons_signalled (timeout : Z) (w : wait_result)
    (s : wr_state) :
  logging_wakeup_reasons s = true ->
  timeout <> 0 -> wait_signalled w <> 0 ->
  logging_wakeup_reasons (run_producers (wait_during w) s) = false ->
  let woken := run_producers (wait_during w) s in
  let time_waited := to_ulong (timeout - wait_signalled w) in
  exists s',
    get_wakeup_reasons timeout w s
    = Returns (WakeupReasons (Some (rev (leaf_nodes (base_irq_nodes woken)))) []) s'
    /\ wakeup_ready_wait s' = Z.max (wakeup_ready_wait s) time_waited
    /\ wakeup_ready_timeout s' = wakeup_ready_timeout s
    /\ wakeup_ready_nowait s' = wakeup_ready_nowait s
    /\ base_irq_nodes s' = base_irq_nodes woken
    /\ wakeup_irqs s' = rev (leaf_nodes (base_irq_nodes woken)).
Proof.
  intros Hon Htimeout Hsignalled Hoff woken time_waited.
  destruct (run_producers_counters (wait_during w) s)
    as (Hct & Hcw & Hcn & _ & _).
  fold woken in Hoff, Hct, Hcw, Hcn.
  unfold get_wakeup_reasons. rewrite Hon.
  destruct (Z.eqb_spec timeout 0) as [|_]; [done|].
  destruct (Z.eqb_spec (wait_signalled w) 0) as [|_]; [done|].
  fold woken. fold time_waited.
  destruct (Z.ltb_spec (wakeup_ready_wait (printk (Waited_for time_waited) woken))
              time_waited) as [Hlonger|Hshorter].
  - rewrite nosync_path by done. eexists. split; [reflexivity|].
    simpl in *. repeat split; try done. lia.
  - rewrite nosync_path by done. eexists. split; [reflexivity|].
    simpl in *. repeat split; try done. lia.
Qed.

(** X12.  [get_wakeup_reasons] does not switch logging off itself after a
    signalled wait: when the wait is signalled and the producers have
    left logging on, the call runs into the [BUG_ON] of
    [get_wakeup_reasons_nosync]. *)
Theorem get_wakeup_reasons_signalled_while_logging (timeout : Z)
    (w : wait_result) (s : wr_state) :
  logging_wakeup_reasons s = true ->
  timeout <> 0 -> wait_signalled w <> 0 ->
  logging_wakeup_reasons (run_producers (wait_during w) s) = true ->
  get_wakeup_reasons timeout w s = BUG.
Proof.
  intros Hon Htimeout Hsignalled Hstill.
  unfold get_wakeup_reasons. rewrite Hon.
  destruct (Z.eqb_spec timeout 0) as [|_]; [done|].
  destruct (Z.eqb_spec (wait_signalled w) 0) as [|_]; [done|].
  unfold get_wakeup_reasons_nosync, logging_wakeup_reasons in *.
  set (time_waited := to_ulong (timeout - wait_signalled w)).
  destruct (wakeup_ready_wait (printk (Waited_for time_waited)
              (run_producers (wait_during w) s)) <? time_waited);
    simpl; by rewrite Hstill.
Qed.

(** X13.  A second call: after a [get_wakeup_reasons] that has returned,
    however it did (also with NULL, after a timeout), the next call does
    not wait; it returns the leaves of the forest as it stands, handled
    or not, with [unfinished] empty, and counts as a call without
    wait. *)
Theorem get_wakeup_reasons_again (timeout timeout' : Z) (w w' : wait_result)
    (s s' : wr_state) (r : wakeup_reasons) :
  get_wakeup_reasons timeout w s = Returns r s' ->
  get_wakeup_reasons timeout' w' s'
  = Returns (WakeupReasons (Some (rev (leaf_nodes (base_irq_nodes s')))) [])
      (set_wakeup_irqs (rev (leaf_nodes (base_irq_nodes s')))
         (set_wakeup_ready_nowait (to_ulong (wakeup_ready_nowait s' + 1)) s')).
Proof.
  intros Hrun.
  assert (Hoff : logging_wakeup_reasons s' = false).
  { unfold get_wakeup_reasons, get_wakeup_reasons_nosync, logging_wakeup_reasons,
      stop_logging_wakeup_reasons, printk in *.
    repeat case_match; simplify_eq; simpl in *; done. }
  unfold get_wakeup_reasons. rewrite Hoff.
  exact (nosync_path
           (set_wakeup_ready_nowait (to_ulong (wakeup_ready_nowait s' + 1)) s') Hoff).
Qed.

(** X14.  [get_wakeup_reasons] returns in one of two shapes and never in
    a mixture of them: NULL, with the timeout counted; or a list of
    reasons, which is then also the content of [wakeup_irqs], with
    [unfinished] empty and the timeout counter untouched. *)
Theorem get_wakeup_reasons_shape (timeout : Z) (w : wait_result)
    (s s' : wr_state) (r : wakeup_reasons) :
  get_wakeup_reasons timeout w s = Returns r s' ->
  (reasons r = None
   /\ logging_wakeup_reasons s = true
   /\ (timeout = 0 \/ wait_signalled w = 0)
   /\ wakeup_ready_timeout s' = to_ulong (wakeup_ready_timeout s + 1)
   /\ wakeup_ready_nowait s' = wakeup_ready_nowait s)
  \/ (reasons r = Some (wakeup_irqs s')
      /\ unfinished r = []
      /\ wakeup_ready_timeout s' = wakeup_ready_timeout s).
Proof.
  intros Hrun.
  destruct (run_producers_counters (wait_during w) s)
    as (Hct & Hcw & Hcn & _ & _).
  unfold get_wakeup_reasons, get_wakeup_reasons_nosync, logging_wakeup_reasons,
    stop_logging_wakeup_reasons, printk in Hrun.
  destruct (log_wakeups s) eqn:Hon.
  - destruct (Z.eqb_spec timeout 0) as [Hzero|Hwait].
    + simpl in Hrun. inversion Hrun; subst. left. simpl. by repeat split; auto.
    + destruct (Z.eqb_spec (wait_signalled w) 0) as [Hout|Hsig].
      * inversion Hrun; subst. left. simpl. rewrite Hct, Hcn.
        by repeat split; auto.
      * right. repeat case_match; simplify_eq; simpl; by rewrite ?Hct.
  - right. repeat case_match; simplify_eq; simpl; done.
Qed.

(** * Further properties of the durations *)

(** X15.  The two durations that [last_suspend_time_show] prints add up
    to the wall-clock time between the two events, whatever the stamps
    are, and the nanoseconds of both are within a second. *)
Theorem durations_add_up (s : wr_state) :
  timespec_to_ns (suspend_resume_time s) + timespec_to_ns (sleep_time s)
  = timespec_to_ns (curr_xtime s) - timespec_to_ns (last_xtime s)
  /\ 0 <= tv_nsec (suspend_resume_time s) < NSEC_PER_SEC
  /\ 0 <= tv_nsec (sleep_time s) < NSEC_PER_SEC.
Proof.
  split; [|split].
  - unfold suspend_resume_time, total_time. rewrite !timespec_sub_to_ns. lia.
  - unfold suspend_resume_time. rewrite timespec_sub_ns. simpl.
    by apply Z.mod_pos_bound.
  - unfold sleep_time. rewrite timespec_sub_ns. simpl.
    by apply Z.mod_pos_bound.
Qed.

(** * Initialisation *)

(** X16.  [wakeup_reason_init] reports one failure only, that of the
    kobject: it returns 1 exactly when the kobject could not be created.
    When the notifier cannot be registered or the group cannot be
    created it prints a warning and returns 0 all the same; in the
    second case the attributes do not exist, the kobject has been put,
    and [wakeup_reason] still points to it. *)
Theorem wakeup_reason_init_outcome (c : init_calls) :
  init_retval (wakeup_reason_init c) = (if kobject_create_and_add c then 0 else 1)
  /\ wakeup_reason_kobject (wakeup_reason_init c) = kobject_create_and_add c
  /\ group_requested (wakeup_reason_init c) = kobject_create_and_add c
  /\ kobject_put (wakeup_reason_init c)
     = kobject_create_and_add c && negb (attributes_visible c)
  /\ length (init_warnings (wakeup_reason_init c))
     = ((if Z.eqb (register_pm_notifier c) 0 then 0 else 1)
        + (if attributes_visible c then 0 else 1))%nat.
Proof.
  unfold wakeup_reason_init, attributes_visible.
  destruct (kobject_create_and_add c), (sysfs_create_group c =? 0),
    (register_pm_notifier c =? 0); done.
Qed.

(** * What the other two attributes depend on *)

Lemma run_producer_times (c : producer_call) (s : wr_state) :
  last_xtime (run_producer c s) = last_xtime s
  /\ curr_xtime (run_producer c s) = curr_xtime s
  /\ last_stime (run_producer c s) = last_stime s
  /\ curr_stime (run_producer c s) = curr_stime s
  /\ total_xtime (run_producer c s) = total_xtime s
  /\ total_stime (run_producer c s) = total_stime s
  /\ total_atime (run_producer c s) = total_atime s.
Proof. destruct c; unfold_ops; simpl; repeat case_match; done. Qed.

Lemma run_producers_times (cs : list producer_call) (s : wr_state) :
  last_xtime (run_producers cs s) = last_xtime s
  /\ curr_xtime (run_producers cs s) = curr_xtime s
  /\ last_stime (run_producers cs s) = last_stime s
  /\ curr_stime (run_producers cs s) = curr_stime s
  /\ total_xtime (run_producers cs s) = total_xtime s
  /\ total_stime (run_producers cs s) = total_stime s
  /\ total_atime (run_producers cs s) = total_atime s.
Proof.
  revert s; induction cs as [|c cs IH]; intros s; [done|].
  unfold run_producers in *. simpl.
  destruct (IH (run_producer c s)) as (-> & -> & -> & -> & -> & -> & ->).
  apply run_producer_times.
Qed.

(** C8, as the code has it.  [PM_SUSPEND_PREPARE] and then
    [PM_POST_SUSPEND], each with its own reading of the clock, with or
    without calls from interrupt context in between: the four stamps are
    the two readings, the sleep time is the advance of the sleep counter,
    the total time is the advance of the wall clock, and the time spent on
    suspend and resume is the total time less the sleep time.  The sleep
    time equals the total time, and the suspend-and-resume time is zero,
    exactly when the two clocks advanced by the same amount; when both
    events get the same reading, the attribute shows zeros. *)
Theorem suspend_round_trip (before after : clock_reading)
    (cs : list producer_call) (s : wr_state) :
  let s2 := wakeup_reason_pm_event PM_POST_SUSPEND after
              (run_producers cs
                 (wakeup_reason_pm_event PM_SUSPEND_PREPARE before s)) in
  let slept := timespec_to_ns (now_sleep after) - timespec_to_ns (now_sleep before) in
  let elapsed := timespec_to_ns (now_xtime after) - timespec_to_ns (now_xtime before) in
  (last_xtime s2 = now_xtime before /\ last_stime s2 = now_sleep before
   /\ curr_xtime s2 = now_xtime after /\ curr_stime s2 = now_sleep after)
  /\ sleep_time s2 = timespec_sub (now_sleep after) (now_sleep before)
  /\ total_time s2 = timespec_sub (now_xtime after) (now_xtime before)
  /\ timespec_to_ns (sleep_time s2) = slept
  /\ timespec_to_ns (total_time s2) = elapsed
  /\ timespec_to_ns (suspend_resume_time s2) = elapsed - slept
  /\ (sleep_time s2 = total_time s2 <-> slept = elapsed)
  /\ (suspend_resume_time s2 = timespec_zero <-> slept = elapsed)
  /\ (after = before ->
      last_suspend_time_show s2 = shown ("0.000000000 0.000000000" +:+ nl)).
Proof.
  intros s2 slept elapsed.
  assert (Hstamps : last_xtime s2 = now_xtime before /\ last_stime s2 = now_sleep before
                    /\ curr_xtime s2 = now_xtime after /\ curr_stime s2 = now_sleep after).
  { destruct (run_producers_times cs
                (wakeup_reason_pm_event PM_SUSPEND_PREPARE before s))
      as (Hlx & _ & Hls & _).
    unfold s2. simpl in *. by rewrite Hlx, Hls. }
  destruct Hstamps as (Hlx & Hls & Hcx & Hcs).
  assert (Hsleep : sleep_time s2 = timespec_sub (now_sleep after) (now_sleep before)).
  { unfold sleep_time. by rewrite Hcs, Hls. }
  assert (Htotal : total_time s2 = timespec_sub (now_xtime after) (now_xtime before)).
  { unfold total_time. by rewrite Hcx, Hlx. }
  assert (Hsleep_ns : timespec_to_ns (sleep_time s2) = slept).
  { by rewrite Hsleep, timespec_sub_to_ns. }
  assert (Htotal_ns : timespec_to_ns (total_time s2) = elapsed).
  { by rewrite Htotal, timespec_sub_to_ns. }
  assert (Hresume_ns : timespec_to_ns (suspend_resume_time s2) = elapsed - slept).
  { unfold suspend_resume_time. by rewrite timespec_sub_to_ns, Hsleep_ns, Htotal_ns. }
  assert (Hzero : slept = elapsed ->
                  sleep_time s2 = total_time s2
                  /\ suspend_resume_time s2 = timespec_zero).
  { intros Hsame. apply all_asleep.
    rewrite Hlx, Hls, Hcx, Hcs. unfold slept, elapsed in Hsame. lia. }
  split; [done|]. split; [done|]. split; [done|]. split; [done|].
  split; [done|]. split; [done|]. split; [|split].
  - split; [|by intros Hsame; apply Hzero].
    intros Heq. by rewrite <- Hsleep_ns, <- Htotal_ns, Heq.
  - split; [|by intros Hsame; apply Hzero].
    intros Heq. rewrite Heq in Hresume_ns. unfold timespec_to_ns at 1 in Hresume_ns.
    simpl in Hresume_ns. lia.
  - intros ->. destruct Hzero as [Hsame Hnone]; [unfold slept, elapsed; lia|].
    unfold last_suspend_time_show. rewrite Hnone.
    assert (Hnap : sleep_time s2 = timespec_zero).
    { rewrite Hsleep, timespec_sub_ns. by rewrite Z.sub_diag. }
    by rewrite Hnap, fmt_timespec_zero.
Qed.

Lemma step_times (o : operation) (s s' : wr_state) :
  step o s = Some s' ->
  total_xtime s' = total_xtime s /\ total_stime s' = total_stime s
  /\ total_atime s' = total_atime s
  /\ ((forall e now, o <> Op_pm_event e now) ->
      last_xtime s' = last_xtime s /\ curr_xtime s' = curr_xtime s
      /\ last_stime s' = last_stime s /\ curr_stime s' = curr_stime s).
Proof.
  intros Hstep.
  assert (Hproducer : forall c, s' = run_producer c s ->
    total_xtime s' = total_xtime s /\ total_stime s' = total_stime s
    /\ total_atime s' = total_atime s
    /\ ((forall e now, o <> Op_pm_event e now) ->
        last_xtime s' = last_xtime s /\ curr_xtime s' = curr_xtime s
        /\ last_stime s' = last_stime s /\ curr_stime s' = curr_stime s)).
  { intros c ->.
    destruct (run_producer_times c s) as (-> & -> & -> & -> & -> & -> & ->).
    done. }
  destruct o; simpl in Hstep.
  - apply (Hproducer (Call_log_wakeup_reason i)). by inversion Hstep.
  - by inversion Hstep; subst.
  - apply (Hproducer (Call_log_suspend_abort_reason msg)). by inversion Hstep.
  - apply (Hproducer (Call_begin_node i)). by inversion Hstep.
  - apply (Hproducer (Call_end_node h)). by inversion Hstep.
  - destruct (run_producers_times (wait_during w) s)
      as (H1 & H2 & H3 & H4 & H5 & H6 & H7).
    unfold get_wakeup_reasons, get_wakeup_reasons_nosync, logging_wakeup_reasons,
      stop_logging_wakeup_reasons, printk in Hstep.
    repeat case_match; simplify_eq; simpl;
      rewrite ?H1, ?H2, ?H3, ?H4, ?H5, ?H6, ?H7; done.
  - unfold clear_wakeup_reasons, clear_wakeup_reasons_nolock in Hstep.
    destruct (logging_wakeup_reasons s); [done|]. by inversion Hstep; subst.
  - inversion Hstep; subst.
    split; [by destruct e|]. split; [by destruct e|]. split; [by destruct e|].
    intros Hother. by destruct (Hother e now).
  - by inversion Hstep; subst.
Qed.

(** X17.  What the two time attributes depend on: only the
    power-management events change what [last_suspend_time_show] prints,
    and only [get_wakeup_reasons] changes what [suspend_since_boot_show]
    prints; no other operation of the file does. *)
Theorem time_attributes_frame (o : operation) (s s' : wr_state) :
  step o s = Some s' ->
  ((forall e now, o <> Op_pm_event e now) ->
   last_suspend_time_show s' = last_suspend_time_show s)
  /\ ((forall timeout w, o <> Op_get_wakeup_reasons timeout w) ->
      suspend_since_boot_show s' = suspend_since_boot_show s).
Proof.
  intros Hstep.
  destruct (step_times o s s' Hstep) as (Htx & Hts & Hta & Hstamps).
  split.
  - intros Hother. destruct (Hstamps Hother) as (Hlx & Hcx & Hls & Hcs).
    unfold last_suspend_time_show, suspend_resume_time, total_time, sleep_time.
    by rewrite Hlx, Hcx, Hls, Hcs.
  - intros Hother.
    assert (Hcounters : wakeup_ready_timeout s' = wakeup_ready_timeout s
                        /\ wakeup_ready_wait s' = wakeup_ready_wait s
                        /\ wakeup_ready_nowait s' = wakeup_ready_nowait s).
    { destruct o; simpl in Hstep;
        try (by destruct (Hother _ _ eq_refl)).
      - inversion Hstep; subst.
        destruct (run_producer_counters (Call_log_wakeup_reason i) s) as (H1 & H2 & H3 & _).
        by cbn [run_producer] in H1, H2, H3.
      - by inversion Hstep; subst.
      - inversion Hstep; subst.
        destruct (run_producer_counters (Call_log_suspend_abort_reason msg) s) as (H1 & H2 & H3 & _).
        by cbn [run_producer] in H1, H2, H3.
      - inversion Hstep; subst.
        destruct (run_producer_counters (Call_begin_node i) s) as (H1 & H2 & H3 & _).
        by cbn [run_producer] in H1, H2, H3.
      - inversion Hstep; subst.
        destruct (run_producer_counters (Call_end_node h) s) as (H1 & H2 & H3 & _).
        by cbn [run_producer] in H1, H2, H3.
      - unfold clear_wakeup_reasons, clear_wakeup_reasons_nolock in Hstep.
        destruct (logging_wakeup_reasons s); [done|]. by inversion Hstep; subst.
      - inversion Hstep; subst. by destruct e.
      - by inversion Hstep; subst. }
    destruct Hcounters as (Hct & Hcw & Hcn).
    destruct (step_counters o s s' Hstep) as (Hsc & Hac & _).
    unfold suspend_since_boot_show.
    by rewrite Htx, Hts, Hta, Hct, Hcw, Hcn, Hsc, Hac.
Qed.

End WakeupReason.

(** * Worked examples *)

(** C1 on the scenario of the spec, followed by one more interrupt: 5 and
    9 are the leaves, 17 is not, and 5, recorded before 9, comes first. *)
Lemma collect_leaves_after_deliveries_witness :
  forest_empty wr_boot
  /\ get_wakeup_reasons_nosync (deliver nested_pair wr_boot) =
       Returns [NodeInfo 1 5 true (Some 0%nat); NodeInfo 2 9 true None]
         (set_wakeup_irqs [NodeInfo 1 5 true (Some 0%nat); NodeInfo 2 9 true None]
            (deliver nested_pair wr_boot)).
Proof.
  assert (Hempty : forest_empty wr_boot) by (by repeat split).
  split; [exact Hempty|].
  exact (proj1 (proj2 (collect_leaves_after_deliveries nested_pair wr_boot Hempty))).
Defined.

(** C2: interrupts 17 and 5 are begun, 5 is ended while the consumer
    waits, and the wait of 100 ticks runs out: 17 is reported unfinished. *)
Lemma get_wakeup_reasons_timeout_witness :
  let s := (begin_node 5 (begin_node 17 wr_boot).2).2 in
  let w := WaitResult [Call_end_node 1] 0 in
  logging_wakeup_reasons s = true /\ 100 <> 0 /\ wait_signalled w = 0
  /\ exists s',
       get_wakeup_reasons 32 256 unnamed 100 w s
       = Returns (WakeupReasons None [NodeInfo 0 17 false None]) s'
       /\ log_wakeups s' = false /\ wakeup_ready_timeout s' = 1.
Proof.
  intros s w.
  assert (Hon : logging_wakeup_reasons s = true) by reflexivity.
  assert (Hticks : 100 <> 0) by discriminate.
  assert (Hout : wait_signalled w = 0) by reflexivity.
  split; [exact Hon|]. split; [exact Hticks|]. split; [exact Hout|].
  eexists. split.
  - exact (proj1 (get_wakeup_reasons_timeout 32 256 unnamed 100 w s Hon Hticks Hout)).
  - split; reflexivity.
Defined.



(** C4: two interrupts are logged, the suspend is aborted, and the cycle
    goes on with another interrupt and another abort: the report is that
    of the first abort. *)
Lemma abort_report_precedence_witness :
  let s := log_wakeup_reason unnamed 42 (log_wakeup_reason unnamed 7 wr_boot) in
  let os := [Op_log_wakeup_reason 9; Op_log_suspend_abort_reason "late";
             Op_pm_event PM_POST_SUSPEND reading_after; Op_show] in
  (0 < 256)%nat /\ suspend_abort s = false
  /\ Forall (fun o => ~ starts_cycle o) os
  /\ exists s',
       steps 32 256 unnamed os (log_suspend_abort_reason 256 "wakeup pending" s)
       = Some s'
       /\ last_resume_reason_show unnamed s' = (21, "Abort: wakeup pending").
Proof.
  intros s os.
  assert (Hsize : (0 < 256)%nat) by lia.
  assert (Hclear : suspend_abort s = false) by reflexivity.
  assert (Hcycle : Forall (fun o => ~ starts_cycle o) os).
  { repeat constructor; intros []. }
  assert (Hsteps : exists s',
    steps 32 256 unnamed os (log_suspend_abort_reason 256 "wakeup pending" s)
    = Some s').
  { eexists. reflexivity. }
  split; [exact Hsize|]. split; [exact Hclear|]. split; [exact Hcycle|].
  destruct Hsteps as [s' Hsteps]. exists s'. split; [exact Hsteps|].
  exact (proj1 (abort_report_precedence 32 256 unnamed "wakeup pending" os s s'
                  Hsize Hclear Hcycle Hsteps)).
Defined.

(** The claim as the spec states it fails when the abort is not the first
    of its cycle, and when its reason is longer than the buffer (here a
    buffer of 8 bytes). *)
Lemma abort_report_keeps_first_reason :
  last_resume_reason_show unnamed
    (log_suspend_abort_reason 256 "X" (log_suspend_abort_reason 256 "Y" wr_boot))
  = (8, "Abort: Y")
  /\ last_resume_reason_show unnamed
       (log_suspend_abort_reason 256 "X" (log_suspend_abort_reason 256 "Y" wr_boot))
     <> (8, "Abort: X")
  /\ last_resume_reason_show unnamed
       (log_suspend_abort_reason 8 "wakeup pending" wr_boot)
     = (14, "Abort: wakeup ").
Proof. split; [reflexivity|]. split; [|reflexivity]. vm_compute. discriminate. Qed.

(** C5: the thirty-third interrupt of a cycle. *)
Lemma log_wakeup_reason_at_capacity_witness :
  let s := Nat.iter 32 (log_wakeup_reason unnamed 7) wr_boot in
  irqcount s = MAX_WAKEUP_REASON_IRQS
  /\ irq_list (log_wakeup_reason unnamed 8 s) = irq_list s
  /\ irqcount (log_wakeup_reason unnamed 8 s) = irqcount s
  /\ recorded_irqs (log_wakeup_reason unnamed 8 s) = replicate 32 7.
Proof.
  intros s.
  assert (Hfull : irqcount s = MAX_WAKEUP_REASON_IRQS) by reflexivity.
  destruct (log_wakeup_reason_at_capacity unnamed 8 s Hfull)
    as (_ & Hlist & Hcount & Hrecorded).
  split; [exact Hfull|]. split; [exact Hlist|]. split; [exact Hcount|].
  rewrite Hrecorded. reflexivity.
Defined.

(** C6: a wait that runs out, from the state at boot. *)
Lemma pm_event_frame_and_counters_witness :
  let s := (begin_node 17 wr_boot).2 in
  let o := Op_get_wakeup_reasons 0 (WaitResult [] 0) in
  exists s', step 32 256 unnamed o s = Some s'
  /\ wakeup_ready_timeout s' = 1 /\ wakeup_ready_timeout s <= wakeup_ready_timeout s'
  /\ wakeup_ready_nowait s <= wakeup_ready_nowait s'.
Proof.
  intros s o.
  assert (Hstep : exists s', step 32 256 unnamed o s = Some s').
  { eexists. reflexivity. }
  destruct Hstep as [s' Hstep]. exists s'. split; [exact Hstep|].
  destruct (pm_event_frame_and_counters 32 256 unnamed reading_before o s s' Hstep)
    as (_ & _ & _ & _ & _ & _ & _ & _ & Htimeout & Hnowait).
  split.
  - vm_compute in Hstep. inversion Hstep. reflexivity.
  - split; [apply Htimeout|apply Hnowait]; vm_compute;
      (split; [discriminate|reflexivity]).
Defined.

(** The claim as the spec states it fails at the end of the range of an
    unsigned long, 32 bits wide or 64: one more call without a wait takes
    [wakeup_ready_nowait] from [ULONG_MAX] to 0. *)
Lemma no_wait_count_wraps :
  wakeup_ready_nowait <$>
    step 32 256 unnamed (Op_get_wakeup_reasons 0 (WaitResult [] 0))
      (set_wakeup_ready_nowait 4294967295 wr_boot) = Some 0
  /\ wakeup_ready_nowait <$>
       step 64 256 unnamed (Op_get_wakeup_reasons 0 (WaitResult [] 0))
         (set_wakeup_ready_nowait 18446744073709551615 wr_boot) = Some 0
  /\ ~ (forall o s s', step 32 256 unnamed o s = Some s' ->
          wakeup_ready_nowait s <= wakeup_ready_nowait s').
Proof.
  split; [reflexivity|]. split; [reflexivity|].
  intros Hmono.
  specialize (Hmono (Op_get_wakeup_reasons 0 (WaitResult [] 0))
                (set_wakeup_ready_nowait 4294967295 wr_boot) _ eq_refl).
  vm_compute in Hmono. by apply Hmono.
Qed.

(** C7: an abort with a reason of 300 characters, then other calls and a
    second abort. *)
Lemma log_suspend_abort_reason_once_witness :
  let first := String.concat "" (replicate 300 "r"%string) in
  let os := [Op_log_wakeup_reason 9; Op_log_suspend_abort_reason "late"] in
  (0 < 256)%nat /\ suspend_abort wr_boot = false
  /\ Forall (fun o => ~ starts_cycle o) os
  /\ exists s',
       steps 32 256 unnamed os (log_suspend_abort_reason 256 first wr_boot) = Some s'
       /\ suspend_abort s' = true
       /\ String.length (abort_reason s') = 255%nat
       /\ log_suspend_abort_reason 256 "again" s' = s'.
Proof.
  intros first os.
  assert (Hsize : (0 < 256)%nat) by lia.
  assert (Hclear : suspend_abort wr_boot = false) by reflexivity.
  assert (Hcycle : Forall (fun o => ~ starts_cycle o) os).
  { repeat constructor; intros []. }
  assert (Hsteps : exists s',
    steps 32 256 unnamed os (log_suspend_abort_reason 256 first wr_boot) = Some s').
  { eexists. reflexivity. }
  split; [exact Hsize|]. split; [exact Hclear|]. split; [exact Hcycle|].
  destruct Hsteps as [s' Hsteps]. exists s'. split; [exact Hsteps|].
  destruct (log_suspend_abort_reason_once 32 256 unnamed first "again" os
              wr_boot s' Hsize Hclear Hcycle Hsteps)
    as (_ & Hlength & Hflag & Hreason & Hagain).
  split; [exact Hflag|]. split; [|exact Hagain].
  rewrite Hreason, Hlength. reflexivity.
Defined.

(** C8: the wall clock and the sleep counter both advance by 50 s between
    the two events, and an interrupt is recorded in between: all of the
    time is sleep. *)
Lemma suspend_round_trip_witness :
  let after := ClockReading (Timespec 150 0) (Timespec 70 0) in
  let s2 := wakeup_reason_pm_event PM_POST_SUSPEND after
              (run_producers 256 unnamed [Call_log_wakeup_reason 7]
                 (wakeup_reason_pm_event PM_SUSPEND_PREPARE reading_before wr_boot)) in
  sleep_time s2 = Timespec 50 0
  /\ sleep_time s2 = total_time s2
  /\ suspend_resume_time s2 = timespec_zero
  /\ last_suspend_time_show 32 s2 = (25, "0.000000000 50.000000000" +:+ nl).
Proof.
  intros after s2.
  destruct (suspend_round_trip 32 256 unnamed reading_before after
              [Call_log_wakeup_reason 7] wr_boot)
    as (_ & Hsleep & _ & _ & _ & _ & Hsame & Hnone & _).
  split; [exact Hsleep|].
  split; [apply Hsame; reflexivity|].
  split; [apply Hnone; reflexivity|].
  vm_compute. reflexivity.
Defined.

(** The claim as the spec states it fails whenever the two clocks do not
    advance alike: prepare-suspend at 100 s with 20 s of sleep,
    post-suspend right after it at 160.5 s with 70 s of sleep, and no
    interrupt: 50 s of sleep in 60.5 s, and 10.5 s spent on suspend and
    resume. *)
Lemma resume_work_is_not_zero :
  let s2 := wakeup_reason_pm_event PM_POST_SUSPEND reading_after
              (wakeup_reason_pm_event PM_SUSPEND_PREPARE reading_before wr_boot) in
  sleep_time s2 = Timespec 50 0
  /\ total_time s2 = Timespec 60 500000000
  /\ suspend_resume_time s2 = Timespec 10 500000000
  /\ sleep_time s2 <> total_time s2
  /\ suspend_resume_time s2 <> timespec_zero
  /\ last_suspend_time_show 32 s2 = (26, "10.500000000 50.000000000" +:+ nl).
Proof.
  intros s2.
  split; [vm_compute; reflexivity|]. split; [vm_compute; reflexivity|].
  split; [vm_compute; reflexivity|].
  split; [vm_compute; discriminate|]. split; [vm_compute; discriminate|].
  vm_compute. reflexivity.
Qed.

(** C9: 60.5 s between the two events, 50 s of them asleep. *)
Lemma durations_sign_and_report_witness :
  let s := wakeup_reason_pm_event PM_POST_SUSPEND reading_after
             (wakeup_reason_pm_event PM_SUSPEND_PREPARE reading_before wr_boot) in
  ~ negative (sleep_time s) /\ ~ negative (total_time s)
  /\ ~ negative (suspend_resume_time s)
  /\ last_suspend_time_show 32 s = (26, "10.500000000 50.000000000" +:+ nl).
Proof.
  intros s.
  destruct (durations_sign_and_report 32 s)
    as (Hsleep & Htotal & Hwork & _ & Hshow & _).
  split; [apply Hsleep; vm_compute; discriminate|].
  split; [apply Htotal; vm_compute; discriminate|].
  split; [apply Hwork; vm_compute; discriminate|].
  rewrite Hshow. vm_compute. reflexivity.
Defined.

(** The claim as the spec states it fails when the attribute is read
    between prepare-suspend and post-suspend: the durations are computed
    against the stamps of the previous resume and come out negative, and
    the attribute prints -80 s and -20 s as unsigned longs without any
    error.  It also fails after a post-suspend that is later than the
    prepare-suspend on both clocks, when the time source has the sleep
    counter advance by more (5 s) than the wall clock (1 s): -4 s is
    printed as 4294967292. *)
Lemma negative_duration_is_printed :
  let s := wakeup_reason_pm_event PM_SUSPEND_PREPARE reading_before wr_boot in
  let s2 := wakeup_reason_pm_event PM_POST_SUSPEND
              (ClockReading (Timespec 101 0) (Timespec 25 0)) s in
  negative (total_time s) /\ negative (suspend_resume_time s)
  /\ last_suspend_time_show 32 s
     = (42, "4294967216.000000000 4294967276.000000000" +:+ nl)
  /\ ~ reports_error (last_suspend_time_show 32 s)
  /\ ~ negative (total_time s2) /\ ~ negative (sleep_time s2)
  /\ negative (suspend_resume_time s2)
  /\ last_suspend_time_show 32 s2 = (33, "4294967292.000000000 5.000000000" +:+ nl).
Proof.
  intros s s2. split; [vm_compute; reflexivity|]. split; [vm_compute; reflexivity|].
  split; [vm_compute; reflexivity|]. split; [vm_compute; discriminate|].
  split; [vm_compute; discriminate|]. split; [vm_compute; discriminate|].
  split; vm_compute; reflexivity.
Qed.

(** C10: one interrupt begun and not ended, and a timeout of 0. *)
Lemma get_wakeup_reasons_zero_timeout_witness :
  let s := (begin_node 17 wr_boot).2 in
  logging_wakeup_reasons s = true
  /\ exists s',
       get_wakeup_reasons 32 256 unnamed 0 (WaitResult [Call_end_node 0] 50) s
       = Returns (WakeupReasons None [NodeInfo 0 17 false None]) s'
       /\ log_wakeups s' = false /\ wakeup_ready_timeout s' = 1.
Proof.
  intros s.
  assert (Hon : logging_wakeup_reasons s = true) by reflexivity.
  split; [exact Hon|]. eexists. split.
  - exact (proj1 (get_wakeup_reasons_zero_timeout 32 256 unnamed
                    (WaitResult [Call_end_node 0] 50) s Hon)).
  - split; reflexivity.
Defined.

(** * More worked examples *)

(** X1: forty interrupts, 100 to 139, in one cycle: 100 to 131 are
    recorded. *)
Lemma log_wakeup_reasons_in_order_witness :
  flat_ok wr_boot
  /\ recorded_irqs
       (foldl (fun s i => log_wakeup_reason unnamed i s)
          (wakeup_reason_pm_event PM_SUSPEND_PREPARE reading_before wr_boot)
          (Z.of_nat <$> seq 100 40))
     = Z.of_nat <$> seq 100 32.
Proof.
  assert (Hok : flat_ok wr_boot).
  { split; [unfold MAX_WAKEUP_REASON_IRQS; simpl; lia|reflexivity]. }
  split; [exact Hok|].
  rewrite (log_wakeup_reasons_in_order unnamed reading_before
             (Z.of_nat <$> seq 100 40) wr_boot Hok).
  vm_compute. reflexivity.
Defined.

(** X2: the thirty-third interrupt leaves [irqcount] at 32. *)
Lemma step_flat_ok_witness :
  let s := Nat.iter 32 (log_wakeup_reason unnamed 7) wr_boot in
  flat_ok s
  /\ exists s', step 32 256 unnamed (Op_log_wakeup_reason 8) s = Some s'
                /\ flat_ok s'.
Proof.
  intros s.
  assert (Hok : flat_ok s).
  { split; [vm_compute; split; discriminate|vm_compute; reflexivity]. }
  split; [exact Hok|]. eexists. split; [reflexivity|].
  exact (step_flat_ok 32 256 unnamed (Op_log_wakeup_reason 8) s _ Hok eq_refl).
Defined.

(** X3: interrupt 7 is found once it is logged, interrupt 9 is not. *)
Lemma check_after_log_wakeup_reason_witness :
  flat_ok wr_boot
  /\ check_wakeup_reason 7 (log_wakeup_reason unnamed 7 wr_boot) = true
  /\ check_wakeup_reason 9 (log_wakeup_reason unnamed 7 wr_boot) = false.
Proof.
  assert (Hok : flat_ok wr_boot).
  { split; [unfold MAX_WAKEUP_REASON_IRQS; simpl; lia|reflexivity]. }
  split; [exact Hok|]. split.
  - rewrite (check_after_log_wakeup_reason unnamed 7 7 wr_boot Hok). reflexivity.
  - rewrite (check_after_log_wakeup_reason unnamed 7 9 wr_boot Hok). reflexivity.
Defined.

(** X4: interrupts 7 and 42 in a cycle. *)
Lemma report_of_a_cycle_witness :
  flat_ok wr_boot
  /\ last_resume_reason_show unnamed
       (foldl (fun s i => log_wakeup_reason unnamed i s)
          (wakeup_reason_pm_event PM_SUSPEND_PREPARE reading_before wr_boot)
          [7; 42])
     = (5, "7" +:+ nl +:+ "42" +:+ nl).
Proof.
  assert (Hok : flat_ok wr_boot).
  { split; [unfold MAX_WAKEUP_REASON_IRQS; simpl; lia|reflexivity]. }
  split; [exact Hok|].
  rewrite (report_of_a_cycle unnamed reading_before [7; 42] wr_boot Hok).
  vm_compute. reflexivity.
Defined.

(** X5: interrupt 42 after interrupt 7. *)
Lemma report_grows_by_one_line_witness :
  let s := log_wakeup_reason unnamed 7 wr_boot in
  flat_ok s /\ suspend_abort s = false
  /\ last_resume_reason_show unnamed (log_wakeup_reason unnamed 42 s)
     = (5, "7" +:+ nl +:+ "42" +:+ nl).
Proof.
  intros s.
  assert (Hok : flat_ok s).
  { split; [vm_compute; split; discriminate|vm_compute; reflexivity]. }
  assert (Hclear : suspend_abort s = false) by reflexivity.
  split; [exact Hok|]. split; [exact Hclear|].
  rewrite (report_grows_by_one_line unnamed 42 s Hok Hclear).
  vm_compute. reflexivity.
Defined.

(** X6: interrupt 42 is found in a cycle that logged 7 and 42. *)
Lemma check_wakeup_reason_in_a_cycle_witness :
  flat_ok wr_boot
  /\ check_wakeup_reason 42
       (foldl (fun s i => log_wakeup_reason unnamed i s)
          (wakeup_reason_pm_event PM_SUSPEND_PREPARE reading_before wr_boot)
          [7; 42]) = true.
Proof.
  assert (Hok : flat_ok wr_boot).
  { split; [unfold MAX_WAKEUP_REASON_IRQS; simpl; lia|reflexivity]. }
  split; [exact Hok|].
  apply (proj2 (check_wakeup_reason_in_a_cycle unnamed reading_before [7; 42]
                  42 wr_boot Hok)).
  apply elem_of_cons. right. apply elem_of_cons. by left.
Defined.

(** X7: interrupt 5, nested under 17, is found in the tree. *)
Lemma check_wakeup_reason_nodes_spec_witness :
  check_wakeup_reason_nodes 5 (deliver nested_pair wr_boot) = true
  /\ exists n, n ∈ nodes (base_irq_nodes (deliver nested_pair wr_boot))
               /\ irq n = 5.
Proof.
  assert (Hfound : check_wakeup_reason_nodes 5 (deliver nested_pair wr_boot) = true)
    by reflexivity.
  split; [exact Hfound|].
  exact (proj1 (check_wakeup_reason_nodes_spec 5 (deliver nested_pair wr_boot))
           Hfound).
Defined.

(** X8: the three nodes of the scenario are freed. *)
Lemma clear_wakeup_reasons_effect_witness :
  let s := deliver nested_pair wr_boot in
  logging_wakeup_reasons s = false
  /\ exists s', clear_wakeup_reasons s = Returns tt s'
                /\ base_irq_nodes s' = NoNode /\ node_count s' = O.
Proof.
  intros s.
  assert (Hoff : logging_wakeup_reasons s = false) by reflexivity.
  split; [exact Hoff|].
  destruct (clear_wakeup_reasons_effect 32 s Hoff)
    as (s' & Hclear & Hbase & _ & _ & _ & Hcount & _).
  exists s'. split; [exact Hclear|]. split; [exact Hbase|].
  rewrite Hcount. reflexivity.
Defined.

(** X9: an abort "Y", the next prepare-suspend, an abort "X". *)
Lemma abort_again_in_next_cycle_witness :
  (0 < 256)%nat
  /\ last_resume_reason_show unnamed
       (log_suspend_abort_reason 256 "X"
          (wakeup_reason_pm_event PM_SUSPEND_PREPARE reading_after
             (log_suspend_abort_reason 256 "Y" wr_boot)))
     = (8, "Abort: X").
Proof.
  assert (Hsize : (0 < 256)%nat) by lia.
  split; [exact Hsize|].
  rewrite (proj1 (abort_again_in_next_cycle 256 unnamed reading_after "X"
                    (log_suspend_abort_reason 256 "Y" wr_boot) Hsize)).
  reflexivity.
Defined.

(** X10: a call that times out, then [clear_wakeup_reasons]. *)
Lemma logging_is_off_after_get_wakeup_reasons_witness :
  let s := (begin_node 17 wr_boot).2 in
  exists r s',
    get_wakeup_reasons 32 256 unnamed 0 (WaitResult [] 0) s = Returns r s'
    /\ logging_wakeup_reasons s' = false
    /\ exists s'', clear_wakeup_reasons s' = Returns tt s''.
Proof.
  intros s.
  assert (Hrun : exists r s',
    get_wakeup_reasons 32 256 unnamed 0 (WaitResult [] 0) s = Returns r s').
  { eexists. eexists. reflexivity. }
  destruct Hrun as (r & s' & Hrun). exists r, s'. split; [exact Hrun|].
  exact (logging_is_off_after_get_wakeup_reasons 32 256 unnamed 0
           (WaitResult [] 0) s s' r Hrun).
Defined.

(** X11: interrupt 17 is ended while the consumer waits and the wait of
    100 ticks is signalled with 40 left: 60 ticks waited. *)
Lemma get_wakeup_reasons_signalled_witness :
  let s := (begin_node 17 wr_boot).2 in
  let w := WaitResult [Call_end_node 0] 40 in
  logging_wakeup_reasons s = true /\ 100 <> 0 /\ wait_signalled w <> 0
  /\ logging_wakeup_reasons (run_producers 256 unnamed (wait_during w) s) = false
  /\ exists s',
       get_wakeup_reasons 32 256 unnamed 100 w s
       = Returns (WakeupReasons (Some [NodeInfo 0 17 true None]) []) s'
       /\ wakeup_ready_wait s' = 60.
Proof.
  intros s w.
  assert (Hon : logging_wakeup_reasons s = true) by reflexivity.
  assert (Hticks : 100 <> 0) by discriminate.
  assert (Hsig : wait_signalled w <> 0) by discriminate.
  assert (Hoff : logging_wakeup_reasons
                   (run_producers 256 unnamed (wait_during w) s) = false)
    by reflexivity.
  split; [exact Hon|]. split; [exact Hticks|]. split; [exact Hsig|].
  split; [exact Hoff|].
  destruct (get_wakeup_reasons_signalled 32 256 unnamed 100 w s
              Hon Hticks Hsig Hoff) as (s' & Hrun & Hwait & _).
  exists s'. split; [exact Hrun|]. rewrite Hwait. reflexivity.
Defined.

(** X12: the wait is signalled although interrupt 17 is still open. *)
Lemma get_wakeup_reasons_signalled_while_logging_witness :
  let s := (begin_node 17 wr_boot).2 in
  let w := WaitResult [] 40 in
  logging_wakeup_reasons s = true /\ 100 <> 0 /\ wait_signalled w <> 0
  /\ logging_wakeup_reasons (run_producers 256 unnamed (wait_during w) s) = true
  /\ get_wakeup_reasons 32 256 unnamed 100 w s = BUG.
Proof.
  intros s w.
  assert (Hon : logging_wakeup_reasons s = true) by reflexivity.
  assert (Hticks : 100 <> 0) by discriminate.
  assert (Hsig : wait_signalled w <> 0) by discriminate.
  assert (Hstill : logging_wakeup_reasons
                     (run_producers 256 unnamed (wait_during w) s) = true)
    by reflexivity.
  split; [exact Hon|]. split; [exact Hticks|]. split; [exact Hsig|].
  split; [exact Hstill|].
  exact (get_wakeup_reasons_signalled_while_logging 32 256 unnamed 100 w s
           Hon Hticks Hsig Hstill).
Defined.

(** X13: a call that times out on the open interrupt 17, and a second
    call, which reports 17 as a reason. *)
Lemma get_wakeup_reasons_again_witness :
  let s := (begin_node 17 wr_boot).2 in
  exists r s',
    get_wakeup_reasons 32 256 unnamed 0 (WaitResult [] 0) s = Returns r s'
    /\ exists s'',
         get_wakeup_reasons 32 256 unnamed 500 (WaitResult [] 0) s'
         = Returns (WakeupReasons (Some [NodeInfo 0 17 false None]) []) s''.
Proof.
  intros s. eexists. eexists. split; [reflexivity|].
  eexists.
  rewrite (get_wakeup_reasons_again 32 256 unnamed 0 500 (WaitResult [] 0)
             (WaitResult [] 0) s _ _ eq_refl).
  reflexivity.
Defined.

(** X14: the shape of a call that times out. *)
Lemma get_wakeup_reasons_shape_witness :
  let s := (begin_node 17 wr_boot).2 in
  exists r s',
    get_wakeup_reasons 32 256 unnamed 0 (WaitResult [] 0) s = Returns r s'
    /\ ((reasons r = None
         /\ logging_wakeup_reasons s = true
         /\ (0 = 0 \/ wait_signalled (WaitResult [] 0) = 0)
         /\ wakeup_ready_timeout s' = to_ulong 32 (wakeup_ready_timeout s + 1)
         /\ wakeup_ready_nowait s' = wakeup_ready_nowait s)
        \/ (reasons r = Some (wakeup_irqs s')
            /\ unfinished r = []
            /\ wakeup_ready_timeout s' = wakeup_ready_timeout s)).
Proof.
  intros s.
  assert (Hrun : exists r s',
    get_wakeup_reasons 32 256 unnamed 0 (WaitResult [] 0) s = Returns r s').
  { eexists. eexists. reflexivity. }
  destruct Hrun as (r & s' & Hrun). exists r, s'. split; [exact Hrun|].
  exact (get_wakeup_reasons_shape 32 256 unnamed 0 (WaitResult [] 0) s s' r Hrun).
Defined.

(** X17: logging an interrupt changes neither of the two time
    attributes. *)
Lemma time_attributes_frame_witness :
  exists s',
    step 32 256 unnamed (Op_log_wakeup_reason 7) wr_boot = Some s'
    /\ last_suspend_time_show 32 s' = last_suspend_time_show 32 wr_boot
    /\ suspend_since_boot_show 32 (fun j => j * 10) s'
       = suspend_since_boot_show 32 (fun j => j * 10) wr_boot.
Proof.
  eexists. split; [reflexivity|].
  destruct (time_attributes_frame 32 256 unnamed (fun j => j * 10)
              (Op_log_wakeup_reason 7) wr_boot _ eq_refl) as [Htime Hboot].
  split; [apply Htime|apply Hboot]; intros; discriminate.
Defined.
